(** * ACME order API (acme/api/order.go)

    A shallow embedding of the order handlers of the ACME API: request
    validation, the authorization factory, the challenge selector and
    the three HTTP handlers [NewOrder], [GetOrder] and [FinalizeOrder].

    Go strings are byte strings and are modelled by [string]; slices by
    [list], with indexed stores written with stdpp's list insert;
    [time.Time] and [time.Duration] by [Z] (nanoseconds, without the
    64-bit bounds of the Go representation).  The collaborators that the
    handlers reach through interfaces or other packages (storage, link
    builder, random source, parsers, clock, request context) are the
    methods of two type classes; the handlers thread a [World] holding
    the storage state, the random source and the trace of collaborator
    calls made so far.  The storage and the link builder are taken to be
    present in the request context (the handlers panic otherwise).  A
    struct reached through a pointer is passed and returned by value:
    a callee that changes it returns the changed struct. *)

From Stdlib Require Import ZArith String Ascii List Lia DecimalString.
From stdpp Require Import base list strings.

Local Open Scope string_scope.
Local Open Scope Z_scope.
Local Open Scope list_scope.

(** ** Package acme: the data model used by the handlers *)

(** Modelled from the spec: the declarations of package acme
    (identifier, challenge and status constants, the entity structs and
    the error constructors) are not part of this file; only the fields
    that order.go reads or writes are kept. *)

Definition IdentifierType := string.
Definition IP : IdentifierType := "ip".
Definition DNS : IdentifierType := "dns".

Definition ChallengeType := string.
Definition HTTP01 : ChallengeType := "http-01".
Definition DNS01 : ChallengeType := "dns-01".
Definition TLSALPN01 : ChallengeType := "tls-alpn-01".

Definition Status := string.
Definition StatusPending : Status := "pending".

Definition Time := Z.
Definition Duration := Z.

Definition Time_IsZero (t : Time) : bool := t =? 0.
Definition Time_Add (t : Time) (d : Duration) : Time := t + d.

Definition Nanosecond : Duration := 1.
Definition Second : Duration := 1000000000 * Nanosecond.
Definition Minute : Duration := 60 * Second.
Definition Hour : Duration := 60 * Minute.

Record Identifier := mkIdentifier {
  Identifier_Type : IdentifierType;
  Identifier_Value : string
}.

Record Challenge := mkChallenge {
  Challenge_ID : string;
  Challenge_AccountID : string;
  Challenge_Value : string;
  Challenge_Type : ChallengeType;
  Challenge_Token : string;
  Challenge_Status : Status
}.

(** [Challenges] is a slice of pointers: an entry that has not been
    assigned yet is [None]. *)
Record Authorization := mkAuthorization {
  Authorization_ID : string;
  Authorization_AccountID : string;
  Authorization_Token : string;
  Authorization_Identifier : Identifier;
  Authorization_Status : Status;
  Authorization_Challenges : list (option Challenge);
  Authorization_Wildcard : bool;
  Authorization_ExpiresAt : Time
}.

Record Order := mkOrder {
  Order_ID : string;
  Order_AccountID : string;
  Order_ProvisionerID : string;
  Order_Status : Status;
  Order_Identifiers : list Identifier;
  Order_ExpiresAt : Time;
  Order_AuthorizationIDs : list string;
  Order_NotBefore : Time;
  Order_NotAfter : Time
}.

Record Account := mkAccount {
  Account_ID : string
}.

(** The provisioner is an interface; the handlers call two of its
    methods, both without arguments. *)
Record Provisioner := mkProvisioner {
  Provisioner_GetID : string;
  Provisioner_DefaultTLSCertDuration : Duration
}.

Inductive ProblemType :=
| ErrorAccountDoesNotExistType
| ErrorMalformedType
| ErrorServerInternalType
| ErrorUnauthorizedType.

(** The Go [error] interface, kept as its message. *)
Definition goerror := string.

(** Modelled from the spec: a structured error carrying a kind tag, a
    detail for the client and an optional underlying cause. *)
Record Error := mkError {
  Error_Type : ProblemType;
  Error_Detail : string;
  Error_Err : option goerror
}.

Definition NewError (typ : ProblemType) (detail : string) : Error :=
  {| Error_Type := typ; Error_Detail := detail; Error_Err := None |}.

Definition WrapError (typ : ProblemType) (err : goerror) (msg : string) : Error :=
  {| Error_Type := typ; Error_Detail := msg; Error_Err := Some err |}.

Definition WrapErrorISE (err : goerror) (msg : string) : Error :=
  WrapError ErrorServerInternalType err msg.

Inductive LinkType :=
| OrderLinkType.

(** ** Package strings *)

Fixpoint HasPrefix (s prefix : string) {struct prefix} : bool :=
  match prefix with
  | EmptyString => true
  | String c prefix' =>
      match s with
      | EmptyString => false
      | String d s' => if Ascii.eqb c d then HasPrefix s' prefix' else false
      end
  end.

Definition TrimPrefix (s prefix : string) : string :=
  if HasPrefix s prefix
  then String.substring (String.length prefix)
         (String.length s - String.length prefix)%nat s
  else s.

(** ** Results *)

Inductive res (E A : Type) :=
| Ok (a : A)
| Err (e : E).
Arguments Ok {E A} a.
Arguments Err {E A} e.

Definition is_ok {E A} (r : res E A) : bool :=
  match r with Ok _ => true | Err _ => false end.

Definition bytes := list Byte.byte.

(** ** Request bodies *)

Record NewOrderRequest := mkNewOrderRequest {
  NewOrderRequest_Identifiers : list Identifier;
  NewOrderRequest_NotBefore : Time;
  NewOrderRequest_NotAfter : Time
}.

Record payloadInfo := mkPayloadInfo {
  payloadInfo_value : bytes
}.

(** What a handler leaves in the response writer: [render.Error], or
    the [Location] header with [render.JSON] / [render.JSONStatus]. *)
Inductive Response :=
| RenderError (e : Error)
| RenderJSON (status : nat) (location : string) (o : Order).

Definition StatusOK : nat := 200.
Definition StatusCreated : nat := 201.

(** ** Collaborators *)

(** The trace of collaborator calls: the argument as passed and, for
    the random source and the creating calls, what the call returned. *)
Inductive Call :=
| CallAlphanumeric (n : nat) (r : res goerror string)
| CallCreateChallenge (ch : Challenge) (r : res goerror string)
| CallCreateAuthorization (az : Authorization) (r : res goerror string)
| CallCreateOrder (o : Order) (r : res goerror string)
| CallGetOrder (id : string)
| CallUpdateStatus (o : Order)
| CallFinalize (o : Order).

(** Modelled from the spec: the storage interface [acme.DB], with
    per-entity create and get returning success or failure.  A create
    assigns the record's ID, returned here on success, and changes no
    other field; a get does not change the storage. *)
Class Database (Store : Type) := {
  db_CreateChallenge : Store -> Challenge -> Store * res goerror string;
  db_CreateAuthorization : Store -> Authorization -> Store * res goerror string;
  db_CreateOrder : Store -> Order -> Store * res goerror string;
  db_GetOrder : Store -> string -> res goerror Order
}.

(** Everything else the handlers reach outside this file: the request
    and its context (middleware of package api), the Go standard
    library parsers, the random source, the clock, the link builder and
    the two methods of [acme.Order] that recompute and finalize. *)
Class Runtime (Req Ctx CertificateRequest Authority Store Entropy : Type) := {
  Request_Context : Req -> Ctx;
  chi_URLParam : Req -> string -> string;
  accountFromContext : Ctx -> res Error Account;
  provisionerFromContext : Ctx -> res Error Provisioner;
  payloadFromContext : Ctx -> res Error payloadInfo;
  mustAuthority : Ctx -> Authority;
  json_Unmarshal_NewOrderRequest : bytes -> res goerror NewOrderRequest;
  json_Unmarshal_FinalizeRequest : bytes -> res goerror string;
  net_ParseIP : string -> option bytes;
  base64_RawURLEncoding_DecodeString : string -> res goerror bytes;
  x509_ParseCertificateRequest : bytes -> res goerror CertificateRequest;
  CertificateRequest_CheckSignature : CertificateRequest -> option goerror;
  randutil_Alphanumeric : Entropy -> nat -> Entropy * res goerror string;
  clock_Now : Time;
  linker_LinkOrder : Ctx -> Order -> Order;
  linker_GetLink : Ctx -> LinkType -> string -> string;
  Order_UpdateStatus : Ctx -> Store -> Order -> Store * res goerror Order;
  Order_Finalize : Ctx -> Store -> Order -> option CertificateRequest ->
                   Authority -> Provisioner -> Store * res goerror Order
}.

Record World (Store Entropy : Type) := mkWorld {
  store : Store;
  entropy : Entropy;
  calls : list Call
}.
Arguments mkWorld {Store Entropy} store entropy calls.
Arguments store {Store Entropy} w.
Arguments entropy {Store Entropy} w.
Arguments calls {Store Entropy} w.

(** ** The handler monad: state passing with early return *)

Definition M (W E A : Type) : Type := W -> W * res E A.

Definition ret {W E A} (a : A) : M W E A := fun w => (w, Ok a).

Definition fail {W E A} (e : E) : M W E A := fun w => (w, Err e).

Definition bind {W E A B} (m : M W E A) (k : A -> M W E B) : M W E B :=
  fun w =>
    match m w with
    | (w', Ok a) => k a w'
    | (w', Err e) => (w', Err e)
    end.

Notation "'let*' x ':=' m 'in' k" := (bind m (fun x => k))
  (at level 10, x pattern, m at level 100, k at level 200).

(** [if err != nil { return wrap(err) }] after a call. *)
Definition orReturn {W E E' A} (m : M W E' A) (wrap : E' -> E) : M W E A :=
  fun w =>
    match m w with
    | (w', Ok a) => (w', Ok a)
    | (w', Err e) => (w', Err (wrap e))
    end.

(** A call that does not touch the world. *)
Definition pure {W E A} (r : res E A) : M W E A := fun w => (w, r).

(** [if err := f(); err != nil { return wrap(err) }]. *)
Definition check {W E E'} (r : option E') (wrap : E' -> E) : M W E unit :=
  match r with
  | None => ret tt
  | Some e => fail (wrap e)
  end.

(** A handler either returned early or ran to its last statement; in
    both cases it has written one response. *)
Definition respond {W} (m : M W Response Response) : W -> W * Response :=
  fun w =>
    match m w with
    | (w', Ok r) => (w', r)
    | (w', Err r) => (w', r)
    end.

(** ** Field updates *)

Definition Authorization_with_ID (az : Authorization) (id : string) :=
  {| Authorization_ID := id;
     Authorization_AccountID := Authorization_AccountID az;
     Authorization_Token := Authorization_Token az;
     Authorization_Identifier := Authorization_Identifier az;
     Authorization_Status := Authorization_Status az;
     Authorization_Challenges := Authorization_Challenges az;
     Authorization_Wildcard := Authorization_Wildcard az;
     Authorization_ExpiresAt := Authorization_ExpiresAt az |}.

Definition Authorization_with_Token (az : Authorization) (tok : string) :=
  {| Authorization_ID := Authorization_ID az;
     Authorization_AccountID := Authorization_AccountID az;
     Authorization_Token := tok;
     Authorization_Identifier := Authorization_Identifier az;
     Authorization_Status := Authorization_Status az;
     Authorization_Challenges := Authorization_Challenges az;
     Authorization_Wildcard := Authorization_Wildcard az;
     Authorization_ExpiresAt := Authorization_ExpiresAt az |}.

Definition Authorization_with_Identifier (az : Authorization) (id : Identifier) :=
  {| Authorization_ID := Authorization_ID az;
     Authorization_AccountID := Authorization_AccountID az;
     Authorization_Token := Authorization_Token az;
     Authorization_Identifier := id;
     Authorization_Status := Authorization_Status az;
     Authorization_Challenges := Authorization_Challenges az;
     Authorization_Wildcard := Authorization_Wildcard az;
     Authorization_ExpiresAt := Authorization_ExpiresAt az |}.

Definition Authorization_with_Challenges (az : Authorization)
    (chs : list (option Challenge)) :=
  {| Authorization_ID := Authorization_ID az;
     Authorization_AccountID := Authorization_AccountID az;
     Authorization_Token := Authorization_Token az;
     Authorization_Identifier := Authorization_Identifier az;
     Authorization_Status := Authorization_Status az;
     Authorization_Challenges := chs;
     Authorization_Wildcard := Authorization_Wildcard az;
     Authorization_ExpiresAt := Authorization_ExpiresAt az |}.

Definition Authorization_with_Wildcard (az : Authorization) (b : bool) :=
  {| Authorization_ID := Authorization_ID az;
     Authorization_AccountID := Authorization_AccountID az;
     Authorization_Token := Authorization_Token az;
     Authorization_Identifier := Authorization_Identifier az;
     Authorization_Status := Authorization_Status az;
     Authorization_Challenges := Authorization_Challenges az;
     Authorization_Wildcard := b;
     Authorization_ExpiresAt := Authorization_ExpiresAt az |}.

Definition Challenge_with_ID (ch : Challenge) (id : string) :=
  {| Challenge_ID := id;
     Challenge_AccountID := Challenge_AccountID ch;
     Challenge_Value := Challenge_Value ch;
     Challenge_Type := Challenge_Type ch;
     Challenge_Token := Challenge_Token ch;
     Challenge_Status := Challenge_Status ch |}.

Definition Order_with_ID (o : Order) (id : string) :=
  {| Order_ID := id;
     Order_AccountID := Order_AccountID o;
     Order_ProvisionerID := Order_ProvisionerID o;
     Order_Status := Order_Status o;
     Order_Identifiers := Order_Identifiers o;
     Order_ExpiresAt := Order_ExpiresAt o;
     Order_AuthorizationIDs := Order_AuthorizationIDs o;
     Order_NotBefore := Order_NotBefore o;
     Order_NotAfter := Order_NotAfter o |}.

Definition Order_with_AuthorizationIDs (o : Order) (ids : list string) :=
  {| Order_ID := Order_ID o;
     Order_AccountID := Order_AccountID o;
     Order_ProvisionerID := Order_ProvisionerID o;
     Order_Status := Order_Status o;
     Order_Identifiers := Order_Identifiers o;
     Order_ExpiresAt := Order_ExpiresAt o;
     Order_AuthorizationIDs := ids;
     Order_NotBefore := Order_NotBefore o;
     Order_NotAfter := Order_NotAfter o |}.

Definition Order_with_NotBefore (o : Order) (t : Time) :=
  {| Order_ID := Order_ID o;
     Order_AccountID := Order_AccountID o;
     Order_ProvisionerID := Order_ProvisionerID o;
     Order_Status := Order_Status o;
     Order_Identifiers := Order_Identifiers o;
     Order_ExpiresAt := Order_ExpiresAt o;
     Order_AuthorizationIDs := Order_AuthorizationIDs o;
     Order_NotBefore := t;
     Order_NotAfter := Order_NotAfter o |}.

Definition Order_with_NotAfter (o : Order) (t : Time) :=
  {| Order_ID := Order_ID o;
     Order_AccountID := Order_AccountID o;
     Order_ProvisionerID := Order_ProvisionerID o;
     Order_Status := Order_Status o;
     Order_Identifiers := Order_Identifiers o;
     Order_ExpiresAt := Order_ExpiresAt o;
     Order_AuthorizationIDs := Order_AuthorizationIDs o;
     Order_NotBefore := Order_NotBefore o;
     Order_NotAfter := t |}.

(** ** The challenge selector *)

Definition challengeTypes (az : Authorization) : list ChallengeType :=
  let t := Identifier_Type (Authorization_Identifier az) in
  if String.eqb t IP then [HTTP01; TLSALPN01]
  else if String.eqb t DNS then
    let chTypes := [DNS01] in
    if negb (Authorization_Wildcard az)
    then chTypes ++ [HTTP01; TLSALPN01]
    else chTypes
  else [].

Definition defaultOrderExpiry : Duration := Hour * 24.
Definition defaultOrderBackdate : Duration := Minute.

Section Api.

Context {Req Ctx CertificateRequest Authority Store Entropy : Type}.
Context {DB : Database Store}.
Context {RT : Runtime Req Ctx CertificateRequest Authority Store Entropy}.

Abbreviation W := (World Store Entropy).

(** *** Collaborator calls on the world, each leaving its trace *)

Definition call_Alphanumeric (n : nat) : M W goerror string :=
  fun w =>
    let '(e', r) := randutil_Alphanumeric (entropy w) n in
    (mkWorld (store w) e' (calls w ++ [CallAlphanumeric n r]), r).

Definition call_CreateChallenge (ch : Challenge) : M W goerror string :=
  fun w =>
    let '(s', r) := db_CreateChallenge (store w) ch in
    (mkWorld s' (entropy w) (calls w ++ [CallCreateChallenge ch r]), r).

Definition call_CreateAuthorization (az : Authorization) : M W goerror string :=
  fun w =>
    let '(s', r) := db_CreateAuthorization (store w) az in
    (mkWorld s' (entropy w) (calls w ++ [CallCreateAuthorization az r]), r).

Definition call_CreateOrder (o : Order) : M W goerror string :=
  fun w =>
    let '(s', r) := db_CreateOrder (store w) o in
    (mkWorld s' (entropy w) (calls w ++ [CallCreateOrder o r]), r).

Definition call_GetOrder (id : string) : M W goerror Order :=
  fun w =>
    (mkWorld (store w) (entropy w) (calls w ++ [CallGetOrder id]),
     db_GetOrder (store w) id).

Definition call_UpdateStatus (ctx : Ctx) (o : Order) : M W goerror Order :=
  fun w =>
    let '(s', r) := Order_UpdateStatus ctx (store w) o in
    (mkWorld s' (entropy w) (calls w ++ [CallUpdateStatus o]), r).

Definition call_Finalize (ctx : Ctx) (o : Order)
    (csr : option CertificateRequest) (ca : Authority) (prov : Provisioner)
    : M W goerror Order :=
  fun w =>
    let '(s', r) := Order_Finalize ctx (store w) o csr ca prov in
    (mkWorld s' (entropy w) (calls w ++ [CallFinalize o]), r).

(** *** NewOrderRequest.Validate *)

Definition isNil {A} (p : option A) : bool :=
  match p with None => true | Some _ => false end.

(** The range loop of [Validate]: the first offending identifier
    decides the error. *)
Fixpoint Validate_loop (ids : list Identifier) : option Error :=
  match ids with
  | [] => None
  | id :: rest =>
      if negb (String.eqb (Identifier_Type id) DNS
               || String.eqb (Identifier_Type id) IP)
      then Some (NewError ErrorMalformedType
                   ("identifier type unsupported: " +:+ Identifier_Type id))
      else if String.eqb (Identifier_Type id) IP
              && isNil (net_ParseIP (Identifier_Value id))
      then Some (NewError ErrorMalformedType
                   ("invalid IP address: " +:+ Identifier_Value id))
      else Validate_loop rest
  end.

Definition NewOrderRequest_Validate (n : NewOrderRequest) : option Error :=
  if (List.length (NewOrderRequest_Identifiers n) =? 0)%nat
  then Some (NewError ErrorMalformedType "identifiers list cannot be empty")
  else Validate_loop (NewOrderRequest_Identifiers n).

(** *** FinalizeRequest.Validate *)

Record FinalizeRequest := mkFinalizeRequest {
  FinalizeRequest_CSR : string;
  FinalizeRequest_csr : option CertificateRequest
}.

(** [Validate] has a pointer receiver: it returns the request as it
    leaves it, with the error. *)
Definition FinalizeRequest_Validate (f : FinalizeRequest)
    : FinalizeRequest * option Error :=
  match base64_RawURLEncoding_DecodeString (FinalizeRequest_CSR f) with
  | Err err =>
      (f, Some (WrapError ErrorMalformedType err "error base64url decoding csr"))
  | Ok csrBytes =>
      match x509_ParseCertificateRequest csrBytes with
      | Err err =>
          (mkFinalizeRequest (FinalizeRequest_CSR f) None,
           Some (WrapError ErrorMalformedType err "unable to parse csr"))
      | Ok csr =>
          let f := mkFinalizeRequest (FinalizeRequest_CSR f) (Some csr) in
          match CertificateRequest_CheckSignature csr with
          | Some err =>
              (f, Some (WrapError ErrorMalformedType err "csr failed signature check"))
          | None => (f, None)
          end
      end
  end.

(** *** newAuthorization *)

(** The range loop over the challenge types, from index [i]. *)
Fixpoint newAuthorization_loop (az : Authorization) (i : nat)
    (chTypes : list ChallengeType) : M W Error Authorization :=
  match chTypes with
  | [] => ret az
  | typ :: rest =>
      let ch := {| Challenge_ID := "";
                   Challenge_AccountID := Authorization_AccountID az;
                   Challenge_Value := Identifier_Value (Authorization_Identifier az);
                   Challenge_Type := typ;
                   Challenge_Token := Authorization_Token az;
                   Challenge_Status := StatusPending |} in
      let* id := orReturn (call_CreateChallenge ch)
                   (fun err => WrapErrorISE err "error creating challenge") in
      let ch := Challenge_with_ID ch id in
      let az := Authorization_with_Challenges az
                  (<[i := Some ch]> (Authorization_Challenges az)) in
      newAuthorization_loop az (S i) rest
  end.

Definition newAuthorization (ctx : Ctx) (az : Authorization)
    : M W Error Authorization :=
  let az :=
    if HasPrefix (Identifier_Value (Authorization_Identifier az)) "*."
    then
      let az := Authorization_with_Wildcard az true in
      Authorization_with_Identifier az
        {| Identifier_Value :=
             TrimPrefix (Identifier_Value (Authorization_Identifier az)) "*.";
           Identifier_Type := Identifier_Type (Authorization_Identifier az) |}
    else az in
  let chTypes := challengeTypes az in
  let* tok := orReturn (call_Alphanumeric 32)
                (fun err => WrapErrorISE err "error generating random alphanumeric ID") in
  let az := Authorization_with_Token az tok in
  let az := Authorization_with_Challenges az
              (replicate (List.length chTypes) None) in
  let* az := newAuthorization_loop az 0 chTypes in
  let* id := orReturn (call_CreateAuthorization az)
               (fun err => WrapErrorISE err "error creating authorization") in
  ret (Authorization_with_ID az id).

(** *** NewOrder *)

(** The range loop over the order's identifiers, from index [i]. *)
Fixpoint NewOrder_loop (ctx : Ctx) (acc : Account) (o : Order) (i : nat)
    (ids : list Identifier) : M W Response Order :=
  match ids with
  | [] => ret o
  | identifier :: rest =>
      let az := {| Authorization_ID := "";
                   Authorization_AccountID := Account_ID acc;
                   Authorization_Token := "";
                   Authorization_Identifier := identifier;
                   Authorization_Status := StatusPending;
                   Authorization_Challenges := [];
                   Authorization_Wildcard := false;
                   Authorization_ExpiresAt := Order_ExpiresAt o |} in
      let* az := orReturn (newAuthorization ctx az) RenderError in
      let o := Order_with_AuthorizationIDs o
                 (<[i := Authorization_ID az]> (Order_AuthorizationIDs o)) in
      NewOrder_loop ctx acc o (S i) rest
  end.

Definition NewOrder (r : Req) : W -> W * Response :=
  respond (
    let ctx := Request_Context r in
    let* acc := orReturn (pure (accountFromContext ctx)) RenderError in
    let* prov := orReturn (pure (provisionerFromContext ctx)) RenderError in
    let* payload := orReturn (pure (payloadFromContext ctx)) RenderError in
    let* nor :=
      orReturn (pure (json_Unmarshal_NewOrderRequest (payloadInfo_value payload)))
        (fun err => RenderError (WrapError ErrorMalformedType err
                      "failed to unmarshal new-order request payload")) in
    let* _ := check (NewOrderRequest_Validate nor) RenderError in
    let now := clock_Now in
    let o := {| Order_ID := "";
                Order_AccountID := Account_ID acc;
                Order_ProvisionerID := Provisioner_GetID prov;
                Order_Status := StatusPending;
                Order_Identifiers := NewOrderRequest_Identifiers nor;
                Order_ExpiresAt := Time_Add now defaultOrderExpiry;
                Order_AuthorizationIDs :=
                  replicate (List.length (NewOrderRequest_Identifiers nor)) "";
                Order_NotBefore := NewOrderRequest_NotBefore nor;
                Order_NotAfter := NewOrderRequest_NotAfter nor |} in
    let* o := NewOrder_loop ctx acc o 0 (Order_Identifiers o) in
    let o := if Time_IsZero (Order_NotBefore o)
             then Order_with_NotBefore o now else o in
    let o := if Time_IsZero (Order_NotAfter o)
             then Order_with_NotAfter o
                    (Time_Add (Order_NotBefore o)
                       (Provisioner_DefaultTLSCertDuration prov))
             else o in
    let o := if Time_IsZero (NewOrderRequest_NotBefore nor)
             then Order_with_NotBefore o
                    (Time_Add (Order_NotBefore o) (- defaultOrderBackdate))
             else o in
    let* id := orReturn (call_CreateOrder o)
                 (fun err => RenderError (WrapErrorISE err "error creating order")) in
    let o := Order_with_ID o id in
    let o := linker_LinkOrder ctx o in
    ret (RenderJSON StatusCreated
           (linker_GetLink ctx OrderLinkType (Order_ID o)) o)).

(** *** GetOrder *)

Definition GetOrder (r : Req) : W -> W * Response :=
  respond (
    let ctx := Request_Context r in
    let* acc := orReturn (pure (accountFromContext ctx)) RenderError in
    let* prov := orReturn (pure (provisionerFromContext ctx)) RenderError in
    let* o := orReturn (call_GetOrder (chi_URLParam r "ordID"))
                (fun err => RenderError (WrapErrorISE err "error retrieving order")) in
    if negb (String.eqb (Account_ID acc) (Order_AccountID o))
    then fail (RenderError (NewError ErrorUnauthorizedType
                 ("account '" +:+ Account_ID acc +:+ "' does not own order '"
                  +:+ Order_ID o +:+ "'")))
    else
    if negb (String.eqb (Provisioner_GetID prov) (Order_ProvisionerID o))
    then fail (RenderError (NewError ErrorUnauthorizedType
                 ("provisioner '" +:+ Provisioner_GetID prov
                  +:+ "' does not own order '" +:+ Order_ID o +:+ "'")))
    else
    let* o := orReturn (call_UpdateStatus ctx o)
                (fun err => RenderError (WrapErrorISE err "error updating order status")) in
    let o := linker_LinkOrder ctx o in
    ret (RenderJSON StatusOK
           (linker_GetLink ctx OrderLinkType (Order_ID o)) o)).

(** *** FinalizeOrder *)

Definition FinalizeOrder (r : Req) : W -> W * Response :=
  respond (
    let ctx := Request_Context r in
    let* acc := orReturn (pure (accountFromContext ctx)) RenderError in
    let* prov := orReturn (pure (provisionerFromContext ctx)) RenderError in
    let* payload := orReturn (pure (payloadFromContext ctx)) RenderError in
    let* csr :=
      orReturn (pure (json_Unmarshal_FinalizeRequest (payloadInfo_value payload)))
        (fun err => RenderError (WrapError ErrorMalformedType err
                      "failed to unmarshal finalize-order request payload")) in
    let fr := mkFinalizeRequest csr None in
    let '(fr, err) := FinalizeRequest_Validate fr in
    let* _ := check err RenderError in
    let* o := orReturn (call_GetOrder (chi_URLParam r "ordID"))
                (fun err => RenderError (WrapErrorISE err "error retrieving order")) in
    if negb (String.eqb (Account_ID acc) (Order_AccountID o))
    then fail (RenderError (NewError ErrorUnauthorizedType
                 ("account '" +:+ Account_ID acc +:+ "' does not own order '"
                  +:+ Order_ID o +:+ "'")))
    else
    if negb (String.eqb (Provisioner_GetID prov) (Order_ProvisionerID o))
    then fail (RenderError (NewError ErrorUnauthorizedType
                 ("provisioner '" +:+ Provisioner_GetID prov
                  +:+ "' does not own order '" +:+ Order_ID o +:+ "'")))
    else
    let ca := mustAuthority ctx in
    let* o := orReturn (call_Finalize ctx o (FinalizeRequest_csr fr) ca prov)
                (fun err => RenderError (WrapErrorISE err "error finalizing order")) in
    let o := linker_LinkOrder ctx o in
    ret (RenderJSON StatusOK
           (linker_GetLink ctx OrderLinkType (Order_ID o)) o)).

End Api.

(** ** Alphanumeric strings *)

Definition isAlphanumericChar (c : ascii) : bool :=
  let n := nat_of_ascii c in
  ((48 <=? n) && (n <=? 57) || (65 <=? n) && (n <=? 90)
   || (97 <=? n) && (n <=? 122))%nat.

Fixpoint isAlphanumeric (s : string) : bool :=
  match s with
  | EmptyString => true
  | String c s' => isAlphanumericChar c && isAlphanumeric s'
  end.

(** ** Vocabulary of the properties *)

(** The challenge that [newAuthorization] builds for the challenge type
    [typ], once the storage has assigned it the identifier [id]. *)
Definition newChallenge (az : Authorization) (typ : ChallengeType) (id : string)
    : Challenge :=
  {| Challenge_ID := id;
     Challenge_AccountID := Authorization_AccountID az;
     Challenge_Value := Identifier_Value (Authorization_Identifier az);
     Challenge_Type := typ;
     Challenge_Token := Authorization_Token az;
     Challenge_Status := StatusPending |}.

(** The first step of [newAuthorization]: a leading wildcard marker is
    moved from the identifier value to the wildcard flag. *)
Definition stripWildcard (az : Authorization) : Authorization :=
  if HasPrefix (Identifier_Value (Authorization_Identifier az)) "*."
  then
    Authorization_with_Identifier (Authorization_with_Wildcard az true)
      {| Identifier_Type := Identifier_Type (Authorization_Identifier az);
         Identifier_Value :=
           TrimPrefix (Identifier_Value (Authorization_Identifier az)) "*." |}
  else az.

(** The trace of a successful [db.CreateChallenge], from the challenge
    as the caller holds it afterwards. *)
Definition createdChallenge (ch : Challenge) : Call :=
  CallCreateChallenge (Challenge_with_ID ch "") (Ok (Challenge_ID ch)).

(** All [db.CreateAuthorization] calls of a trace, with their results. *)
Fixpoint authorizationCalls (cs : list Call)
    : list (Authorization * res goerror string) :=
  match cs with
  | [] => []
  | CallCreateAuthorization az r :: cs' => (az, r) :: authorizationCalls cs'
  | _ :: cs' => authorizationCalls cs'
  end.

(** The authorization that [NewOrder] hands to [newAuthorization] for
    one identifier of the order. *)
Definition pendingAuthorization (acc : Account) (expires : Time)
    (identifier : Identifier) : Authorization :=
  {| Authorization_ID := "";
     Authorization_AccountID := Account_ID acc;
     Authorization_Token := "";
     Authorization_Identifier := identifier;
     Authorization_Status := StatusPending;
     Authorization_Challenges := [];
     Authorization_Wildcard := false;
     Authorization_ExpiresAt := expires |}.

(** [az] is an authorization of account [acc] for [identifier] that
    expires at [expires]. *)
Definition authorizes (acc : Account) (expires : Time)
    (identifier : Identifier) (az : Authorization) : Prop :=
  Authorization_AccountID az = Account_ID acc /\
  Authorization_ExpiresAt az = expires /\
  Authorization_Status az = StatusPending /\
  Identifier_Type (Authorization_Identifier az) = Identifier_Type identifier /\
  Identifier_Value (Authorization_Identifier az)
    = TrimPrefix (Identifier_Value identifier) "*." /\
  Authorization_Wildcard az = HasPrefix (Identifier_Value identifier) "*.".

(** The closed form of the order that [NewOrder] hands to the storage:
    the validity window is resolved against [now] and the provisioner's
    default duration. *)
Definition orderFor (acc : Account) (prov : Provisioner) (nor : NewOrderRequest)
    (now : Time) (authorizationIDs : list string) : Order :=
  {| Order_ID := "";
     Order_AccountID := Account_ID acc;
     Order_ProvisionerID := Provisioner_GetID prov;
     Order_Status := StatusPending;
     Order_Identifiers := NewOrderRequest_Identifiers nor;
     Order_ExpiresAt := Time_Add now defaultOrderExpiry;
     Order_AuthorizationIDs := authorizationIDs;
     Order_NotBefore :=
       if Time_IsZero (NewOrderRequest_NotBefore nor)
       then Time_Add now (- defaultOrderBackdate)
       else NewOrderRequest_NotBefore nor;
     Order_NotAfter :=
       if Time_IsZero (NewOrderRequest_NotAfter nor)
       then Time_Add (if Time_IsZero (NewOrderRequest_NotBefore nor)
                      then now else NewOrderRequest_NotBefore nor)
              (Provisioner_DefaultTLSCertDuration prov)
       else NewOrderRequest_NotAfter nor |}.

(** The order is owned by another account or another provisioner. *)
Definition notOwner (acc : Account) (prov : Provisioner) (o : Order) : Prop :=
  Account_ID acc <> Order_AccountID o \/
  Provisioner_GetID prov <> Order_ProvisionerID o.

Definition unsupportedType (id : Identifier) : Prop :=
  Identifier_Type id <> DNS /\ Identifier_Type id <> IP.

Section Vocabulary.

Context {Req Ctx CertificateRequest Authority Store Entropy : Type}.
Context {RT : Runtime Req Ctx CertificateRequest Authority Store Entropy}.

(** The CSR carried by a finalize request is rejected: it does not
    decode, or the decoded bytes do not parse, or the parsed request
    fails its signature check. *)
Definition invalidCSR (csr : string) : Prop :=
  (exists err, base64_RawURLEncoding_DecodeString csr = Err err) \/
  (exists b err, base64_RawURLEncoding_DecodeString csr = Ok b /\
                 x509_ParseCertificateRequest b = Err err) \/
  (exists b c err, base64_RawURLEncoding_DecodeString csr = Ok b /\
                   x509_ParseCertificateRequest b = Ok c /\
                   CertificateRequest_CheckSignature c = Some err).

Definition unparseableIP (id : Identifier) : Prop :=
  Identifier_Type id = IP /\ net_ParseIP (Identifier_Value id) = None.

(** The identifier lists that [Validate] is to reject. *)
Definition invalidIdentifiers (ids : list Identifier) : Prop :=
  ids = [] \/ Exists (fun id => unsupportedType id \/ unparseableIP id) ids.

(** The random source never fails. *)
Definition infallibleRandom : Prop :=
  forall (e : Entropy) (n : nat), is_ok (snd (randutil_Alphanumeric e n)) = true.

(** The storage accepts every create. *)
Definition infallibleCreate {DB : Database Store} : Prop :=
  (forall s ch, is_ok (snd (db_CreateChallenge s ch)) = true) /\
  (forall s az, is_ok (snd (db_CreateAuthorization s az)) = true) /\
  (forall s o, is_ok (snd (db_CreateOrder s o)) = true).

End Vocabulary.

(** ** An in-memory storage and a scripted runtime

    Used to run the handlers on concrete requests. *)

Record MemStore := mkMemStore {
  mem_challenges : list Challenge;
  mem_authorizations : list Authorization;
  mem_orders : list Order
}.

Definition decimal (n : nat) : string :=
  NilEmpty.string_of_uint (Nat.to_uint n).

(** Records are appended with an ID made of a kind prefix and their
    rank; an order is looked up by its ID. *)
Definition memDatabase : Database MemStore := {|
  db_CreateChallenge s ch :=
    let id := "ch" +:+ decimal (List.length (mem_challenges s)) in
    (mkMemStore (mem_challenges s ++ [Challenge_with_ID ch id])
       (mem_authorizations s) (mem_orders s), Ok id);
  db_CreateAuthorization s az :=
    let id := "az" +:+ decimal (List.length (mem_authorizations s)) in
    (mkMemStore (mem_challenges s)
       (mem_authorizations s ++ [Authorization_with_ID az id]) (mem_orders s), Ok id);
  db_CreateOrder s o :=
    let id := "ord" +:+ decimal (List.length (mem_orders s)) in
    (mkMemStore (mem_challenges s) (mem_authorizations s)
       (mem_orders s ++ [Order_with_ID o id]), Ok id);
  db_GetOrder s id :=
    match List.find (fun o => String.eqb (Order_ID o) id) (mem_orders s) with
    | Some o => Ok o
    | None => Err "order not found"
    end
|}.

Definition alphabet : list ascii :=
  list_ascii_of_string
    "0123456789ABCDEFGHIJKLMNOPQRSTUVWXYZabcdefghijklmnopqrstuvwxyz".

(** A deterministic stand-in for the random source: [n] characters of
    the alphabet, from position [seed] on. *)
Fixpoint alnumString (seed n : nat) : string :=
  match n with
  | O => EmptyString
  | S n' => String (nth (seed mod 62) alphabet "0"%char) (alnumString (S seed) n')
  end.

(** What the request context and the parsers give for one request. *)
Record Script := mkScript {
  script_account : res Error Account;
  script_provisioner : res Error Provisioner;
  script_payload : res Error payloadInfo;
  script_ordID : string;
  script_newOrder : res goerror NewOrderRequest;
  script_finalize : res goerror string;
  script_csrBytes : res goerror bytes;
  script_csrParsed : res goerror string;
  script_csrSignature : option goerror;
  script_now : Time
}.

Definition knownIP (s : string) : option bytes :=
  if String.eqb s "192.0.2.1"
  then Some [Byte.xc0; Byte.x00; Byte.x02; Byte.x01]
  else None.

Definition scripted (sc : Script)
    : Runtime unit unit string unit MemStore nat := {|
  Request_Context _ := tt;
  chi_URLParam _ _ := script_ordID sc;
  accountFromContext _ := script_account sc;
  provisionerFromContext _ := script_provisioner sc;
  payloadFromContext _ := script_payload sc;
  mustAuthority _ := tt;
  json_Unmarshal_NewOrderRequest _ := script_newOrder sc;
  json_Unmarshal_FinalizeRequest _ := script_finalize sc;
  net_ParseIP := knownIP;
  base64_RawURLEncoding_DecodeString _ := script_csrBytes sc;
  x509_ParseCertificateRequest _ := script_csrParsed sc;
  CertificateRequest_CheckSignature _ := script_csrSignature sc;
  randutil_Alphanumeric seed n := ((seed + n)%nat, Ok (alnumString seed n));
  clock_Now := script_now sc;
  linker_LinkOrder _ o := o;
  linker_GetLink _ _ id := "https://ca.example/acme/order/" +:+ id;
  Order_UpdateStatus _ s o := (s, Ok o);
  Order_Finalize _ s o _ _ _ := (s, Ok o)
|}.

Definition alice : Account := {| Account_ID := "alice" |}.
Definition bob : Account := {| Account_ID := "bob" |}.

Definition acmeProvisioner : Provisioner :=
  {| Provisioner_GetID := "acme/default";
     Provisioner_DefaultTLSCertDuration := 24 * Hour |}.

Definition otherProvisioner : Provisioner :=
  {| Provisioner_GetID := "acme/other";
     Provisioner_DefaultTLSCertDuration := 24 * Hour |}.

Definition wildcardIdentifier : Identifier :=
  {| Identifier_Type := DNS; Identifier_Value := "*.example.com" |}.

(** A new-order request of [alice] for [*.example.com] without validity
    window. *)
Definition wildcardScript : Script :=
  {| script_account := Ok alice;
     script_provisioner := Ok acmeProvisioner;
     script_payload := Ok (mkPayloadInfo []);
     script_ordID := "";
     script_newOrder := Ok (mkNewOrderRequest [wildcardIdentifier] 0 0);
     script_finalize := Err "no csr";
     script_csrBytes := Err "no csr";
     script_csrParsed := Err "no csr";
     script_csrSignature := None;
     script_now := 1000 * Hour |}.

(** A new-order request with an IP identifier that is not an address. *)
Definition badIPScript : Script :=
  {| script_account := Ok alice;
     script_provisioner := Ok acmeProvisioner;
     script_payload := Ok (mkPayloadInfo []);
     script_ordID := "";
     script_newOrder :=
       Ok (mkNewOrderRequest
             [{| Identifier_Type := DNS; Identifier_Value := "example.com" |};
              {| Identifier_Type := IP; Identifier_Value := "300.1.2.3" |}] 0 0);
     script_finalize := Err "no csr";
     script_csrBytes := Err "no csr";
     script_csrParsed := Err "no csr";
     script_csrSignature := None;
     script_now := 1000 * Hour |}.

(** A request of [bob] on the order [ord0], with a CSR whose signature
    check gives [signature]. *)
Definition finalizeScript (signature : option goerror) : Script :=
  {| script_account := Ok bob;
     script_provisioner := Ok acmeProvisioner;
     script_payload := Ok (mkPayloadInfo []);
     script_ordID := "ord0";
     script_newOrder := Err "no identifiers";
     script_finalize := Ok "MIIB";
     script_csrBytes := Ok [Byte.x30; Byte.x82];
     script_csrParsed := Ok "CN=example.com";
     script_csrSignature := signature;
     script_now := 1000 * Hour |}.

Definition emptyWorld : World MemStore nat :=
  mkWorld (mkMemStore [] [] []) 0%nat [].

(** The storage holds one order, of [alice]. *)
Definition aliceOrder : Order :=
  {| Order_ID := "ord0";
     Order_AccountID := "alice";
     Order_ProvisionerID := "acme/default";
     Order_Status := StatusPending;
     Order_Identifiers := [wildcardIdentifier];
     Order_ExpiresAt := 1024 * Hour;
     Order_AuthorizationIDs := ["az0"];
     Order_NotBefore := 1000 * Hour;
     Order_NotAfter := 1024 * Hour |}.

Definition aliceWorld : World MemStore nat :=
  mkWorld (mkMemStore [] [] [aliceOrder]) 0%nat [].

(** ** Further vocabulary *)

(** All [db.CreateOrder] calls of a trace, with their results. *)
Fixpoint orderCalls (cs : list Call) : list (Order * res goerror string) :=
  match cs with
  | [] => []
  | CallCreateOrder o r :: cs' => (o, r) :: orderCalls cs'
  | _ :: cs' => orderCalls cs'
  end.


(** [az] is the authorization that [newAuthorization] hands to the
    storage for [identifier]: wildcard marker moved to the flag, a token,
    and one stored challenge for each selected challenge type. *)
Definition createdFor (acc : Account) (expires : Time)
    (identifier : Identifier) (az : Authorization) : Prop :=
  let az0 := stripWildcard (pendingAuthorization acc expires identifier) in
  exists (tok : string) (ids : list string),
    List.length ids = List.length (challengeTypes az0) /\
    az = Authorization_with_Challenges (Authorization_with_Token az0 tok)
           (map Some
              (zip_with (newChallenge (Authorization_with_Token az0 tok))
                 (challengeTypes az0) ids)).

(** The order as [NewOrder] builds it before the fan-out. *)
Definition pendingOrder (acc : Account) (prov : Provisioner)
    (nor : NewOrderRequest) (now : Time) : Order :=
  {| Order_ID := "";
     Order_AccountID := Account_ID acc;
     Order_ProvisionerID := Provisioner_GetID prov;
     Order_Status := StatusPending;
     Order_Identifiers := NewOrderRequest_Identifiers nor;
     Order_ExpiresAt := Time_Add now defaultOrderExpiry;
     Order_AuthorizationIDs :=
       replicate (List.length (NewOrderRequest_Identifiers nor)) "";
     Order_NotBefore := NewOrderRequest_NotBefore nor;
     Order_NotAfter := NewOrderRequest_NotAfter nor |}.

Section ValidationVocabulary.

Context {Req Ctx CertificateRequest Authority Store Entropy : Type}.
Context {RT : Runtime Req Ctx CertificateRequest Authority Store Entropy}.

(** The identifiers that [Validate] lets through: a DNS identifier with
    any value, or an IP identifier whose value parses. *)
Definition acceptable (id : Identifier) : Prop :=
  Identifier_Type id = DNS \/
  (Identifier_Type id = IP /\
   exists ip, net_ParseIP (Identifier_Value id) = Some ip).

End ValidationVocabulary.

(** ** Further fixtures *)


(** The scripted runtime with a random source that fails. *)
Definition brokenRandom (sc : Script)
    : Runtime unit unit string unit MemStore nat := {|
  Request_Context := Request_Context (Runtime := scripted sc);
  chi_URLParam := chi_URLParam (Runtime := scripted sc);
  accountFromContext := accountFromContext (Runtime := scripted sc);
  provisionerFromContext := provisionerFromContext (Runtime := scripted sc);
  payloadFromContext := payloadFromContext (Runtime := scripted sc);
  mustAuthority := mustAuthority (Runtime := scripted sc);
  json_Unmarshal_NewOrderRequest :=
    json_Unmarshal_NewOrderRequest (Runtime := scripted sc);
  json_Unmarshal_FinalizeRequest :=
    json_Unmarshal_FinalizeRequest (Runtime := scripted sc);
  net_ParseIP := net_ParseIP (Runtime := scripted sc);
  base64_RawURLEncoding_DecodeString :=
    base64_RawURLEncoding_DecodeString (Runtime := scripted sc);
  x509_ParseCertificateRequest :=
    x509_ParseCertificateRequest (Runtime := scripted sc);
  CertificateRequest_CheckSignature :=
    CertificateRequest_CheckSignature (Runtime := scripted sc);
  randutil_Alphanumeric seed n := (seed, Err "entropy source unavailable");
  clock_Now := clock_Now (Runtime := scripted sc);
  linker_LinkOrder := linker_LinkOrder (Runtime := scripted sc);
  linker_GetLink := linker_GetLink (Runtime := scripted sc);
  Order_UpdateStatus := Order_UpdateStatus (Runtime := scripted sc);
  Order_Finalize := Order_Finalize (Runtime := scripted sc)
|}.

Definition exampleName : Identifier :=
  {| Identifier_Type := DNS; Identifier_Value := "example.com" |}.

Definition exampleAddress : Identifier :=
  {| Identifier_Type := IP; Identifier_Value := "192.0.2.1" |}.

(** A new-order request of [alice] for a name and an address, with the
    validity window [notBefore], [notAfter]. *)
Definition twoIdentifiersScript (notBefore notAfter : Time) : Script :=
  {| script_account := Ok alice;
     script_provisioner := Ok acmeProvisioner;
     script_payload := Ok (mkPayloadInfo []);
     script_ordID := "";
     script_newOrder :=
       Ok (mkNewOrderRequest [exampleName; exampleAddress] notBefore notAfter);
     script_finalize := Err "no csr";
     script_csrBytes := Err "no csr";
     script_csrParsed := Err "no csr";
     script_csrSignature := None;
     script_now := 1000 * Hour |}.

(** A request on the order [ord0] by [acc] under [prov], with a CSR that
    passes validation. *)
Definition orderScript (acc : res Error Account) (prov : Provisioner) : Script :=
  {| script_account := acc;
     script_provisioner := Ok prov;
     script_payload := Ok (mkPayloadInfo []);
     script_ordID := "ord0";
     script_newOrder := Err "no identifiers";
     script_finalize := Ok "MIIB";
     script_csrBytes := Ok [Byte.x30; Byte.x82];
     script_csrParsed := Ok "CN=example.com";
     script_csrSignature := None;
     script_now := 1000 * Hour |}.

(** A runtime in which the request carries its own context: account,
    provisioner, payload and order ID are those of the request's script;
    everything else is as in the scripted runtime of [sc]. *)
Definition perRequest (sc : Script)
    : Runtime Script Script string unit MemStore nat := {|
  Request_Context r := r;
  chi_URLParam r _ := script_ordID r;
  accountFromContext := script_account;
  provisionerFromContext := script_provisioner;
  payloadFromContext := script_payload;
  mustAuthority _ := tt;
  json_Unmarshal_NewOrderRequest :=
    json_Unmarshal_NewOrderRequest (Runtime := scripted sc);
  json_Unmarshal_FinalizeRequest :=
    json_Unmarshal_FinalizeRequest (Runtime := scripted sc);
  net_ParseIP := net_ParseIP (Runtime := scripted sc);
  base64_RawURLEncoding_DecodeString :=
    base64_RawURLEncoding_DecodeString (Runtime := scripted sc);
  x509_ParseCertificateRequest :=
    x509_ParseCertificateRequest (Runtime := scripted sc);
  CertificateRequest_CheckSignature :=
    CertificateRequest_CheckSignature (Runtime := scripted sc);
  randutil_Alphanumeric := randutil_Alphanumeric (Runtime := scripted sc);
  clock_Now := clock_Now (Runtime := scripted sc);
  linker_LinkOrder _ o := o;
  linker_GetLink _ _ id := "https://ca.example/acme/order/" +:+ id;
  Order_UpdateStatus _ s o := (s, Ok o);
  Order_Finalize _ s o _ _ _ := (s, Ok o)
|}.

Definition accountMissing : Error :=
  NewError ErrorAccountDoesNotExistType "account not in context".

(** * Properties *)

(** ** Strings *)

Lemma HasPrefix_app (p rest : string) : HasPrefix (p +:+ rest) p = true.
Proof.
  induction p as [|c p IH]; simpl; [reflexivity|].
  rewrite Ascii.eqb_refl. exact IH.
Qed.

Lemma HasPrefix_inv (p s : string) :
  HasPrefix s p = true -> exists rest, s = p +:+ rest.
Proof.
  revert s. induction p as [|c p IH]; intros s H; simpl in *.
  - exists s. reflexivity.
  - destruct s as [|d s]; [discriminate|].
    destruct (Ascii.eqb c d) eqn:E; [|discriminate].
    apply Ascii.eqb_eq in E. subst d.
    destruct (IH s H) as [rest ->]. exists rest. reflexivity.
Qed.

Lemma substring_all (s : string) : String.substring 0 (String.length s) s = s.
Proof.
  induction s as [|c s IH]; simpl; [reflexivity|]. now rewrite IH.
Qed.

Lemma substring_skip (p s : string) (n : nat) :
  String.substring (String.length p) n (p +:+ s) = String.substring 0 n s.
Proof.
  induction p as [|c p IH]; simpl; [reflexivity|]. exact IH.
Qed.

Lemma length_string_app (p s : string) :
  String.length (p +:+ s) = (String.length p + String.length s)%nat.
Proof.
  induction p as [|c p IH]; simpl; [reflexivity|]. now rewrite IH.
Qed.

Lemma TrimPrefix_app (p rest : string) : TrimPrefix (p +:+ rest) p = rest.
Proof.
  unfold TrimPrefix. rewrite HasPrefix_app, substring_skip, length_string_app.
  replace (String.length p + String.length rest - String.length p)%nat
    with (String.length rest) by lia.
  apply substring_all.
Qed.

(** ** The challenge selector *)

(** C3: [challengeTypes] depends on the identifier type and the wildcard
    flag only; it returns [HTTP-01, TLS-ALPN-01] for an IP identifier,
    [DNS-01, HTTP-01, TLS-ALPN-01] for a DNS identifier without
    wildcard, [DNS-01] for a wildcard DNS identifier, and the empty list
    for every other identifier type. *)
Theorem challengeTypes_spec (az : Authorization) :
  let typ := Identifier_Type (Authorization_Identifier az) in
  (typ = IP -> challengeTypes az = [HTTP01; TLSALPN01]) /\
  (typ = DNS -> Authorization_Wildcard az = false ->
     challengeTypes az = [DNS01; HTTP01; TLSALPN01]) /\
  (typ = DNS -> Authorization_Wildcard az = true ->
     challengeTypes az = [DNS01]) /\
  (typ <> IP -> typ <> DNS -> challengeTypes az = []) /\
  (forall az' : Authorization,
     Identifier_Type (Authorization_Identifier az') = typ ->
     Authorization_Wildcard az' = Authorization_Wildcard az ->
     challengeTypes az' = challengeTypes az).
Proof.
  cbv zeta. unfold challengeTypes. repeat split.
  - intros ->. reflexivity.
  - intros -> ->. reflexivity.
  - intros -> ->. reflexivity.
  - intros HnIP HnDNS.
    destruct (String.eqb_spec (Identifier_Type (Authorization_Identifier az)) IP);
      [contradiction|].
    destruct (String.eqb_spec (Identifier_Type (Authorization_Identifier az)) DNS);
      [contradiction|].
    reflexivity.
  - intros az' -> ->. reflexivity.
Qed.

Section ApiProperties.

Context {Req Ctx CertificateRequest Authority Store Entropy : Type}.
Context {RT : Runtime Req Ctx CertificateRequest Authority Store Entropy}.

Abbreviation W := (World Store Entropy).

(** *** FinalizeRequest.Validate *)

Lemma FinalizeRequest_Validate_malformed (f : FinalizeRequest) (e : Error) :
  snd (FinalizeRequest_Validate f) = Some e -> Error_Type e = ErrorMalformedType.
Proof.
  unfold FinalizeRequest_Validate.
  destruct (base64_RawURLEncoding_DecodeString _) as [b|err]; simpl.
  - destruct (x509_ParseCertificateRequest b) as [c|err]; simpl.
    + destruct (CertificateRequest_CheckSignature c); simpl;
        [|discriminate].
      intros [= <-]. reflexivity.
    + intros [= <-]. reflexivity.
  - intros [= <-]. reflexivity.
Qed.

Lemma invalidCSR_Validate (csr : string) (c0 : option CertificateRequest) :
  invalidCSR csr ->
  exists e, snd (FinalizeRequest_Validate (mkFinalizeRequest csr c0)) = Some e.
Proof.
  unfold FinalizeRequest_Validate. simpl.
  intros [[err H]|[(b & err & Hb & H)|(b & c & err & Hb & Hc & H)]].
  - rewrite H. eauto.
  - rewrite Hb, H. eauto.
  - rewrite Hb, Hc, H. eauto.
Qed.

(** *** NewOrderRequest.Validate *)

Lemma Validate_loop_rejects (ids : list Identifier) :
  Exists (fun id => unsupportedType id \/ unparseableIP id) ids ->
  exists e, Validate_loop ids = Some e.
Proof.
  induction ids as [|id ids IH]; intros Hex; [inversion Hex|].
  simpl.
  destruct (negb (String.eqb (Identifier_Type id) DNS
                  || String.eqb (Identifier_Type id) IP)) eqn:Htyp;
    [eauto|].
  destruct (String.eqb (Identifier_Type id) IP
            && isNil (net_ParseIP (Identifier_Value id))) eqn:Hip;
    [eauto|].
  apply IH. inversion Hex as [? ? Hbad|]; subst; [|assumption]. exfalso.
  destruct Hbad as [[HnD HnI]|[HI Hnil]].
  - apply negb_false_iff, orb_true_iff in Htyp as [H|H];
      apply String.eqb_eq in H; contradiction.
  - rewrite HI, Hnil in Hip. discriminate.
Qed.

Lemma Validate_loop_error (ids : list Identifier) (e : Error) :
  Validate_loop ids = Some e ->
  Error_Type e = ErrorMalformedType /\
  ((exists id, In id ids /\ unsupportedType id /\
               Error_Detail e = "identifier type unsupported: " +:+ Identifier_Type id) \/
   (exists id, In id ids /\ unparseableIP id /\
               Error_Detail e = "invalid IP address: " +:+ Identifier_Value id)).
Proof.
  induction ids as [|id ids IH]; [discriminate|]. simpl.
  destruct (String.eqb_spec (Identifier_Type id) DNS) as [HD|HD];
    destruct (String.eqb_spec (Identifier_Type id) IP) as [HI|HI]; simpl.
  1,2,3: destruct (net_ParseIP (Identifier_Value id)) eqn:Hparse; simpl.
  all: try (intros H; destruct (IH H) as [Ht [(x & Hx & Hr)|(x & Hx & Hr)]];
            (split; [exact Ht|]); [left|right]; exists x; now split; [right|]).
  all: intros [= <-]; (split; [reflexivity|]).
  - right. exists id. repeat split; auto.
  - right. exists id. repeat split; auto.
  - left. exists id. repeat split; auto.
Qed.

Lemma Validate_rejects (nor : NewOrderRequest) :
  invalidIdentifiers (NewOrderRequest_Identifiers nor) ->
  exists e,
    NewOrderRequest_Validate nor = Some e /\
    Error_Type e = ErrorMalformedType /\
    ((NewOrderRequest_Identifiers nor = [] /\
      Error_Detail e = "identifiers list cannot be empty") \/
     (exists id, In id (NewOrderRequest_Identifiers nor) /\ unsupportedType id /\
                 Error_Detail e = "identifier type unsupported: " +:+ Identifier_Type id) \/
     (exists id, In id (NewOrderRequest_Identifiers nor) /\ unparseableIP id /\
                 Error_Detail e = "invalid IP address: " +:+ Identifier_Value id)).
Proof.
  unfold NewOrderRequest_Validate, invalidIdentifiers.
  destruct (NewOrderRequest_Identifiers nor) as [|id ids] eqn:Hids.
  - intros _. eexists. split; [reflexivity|]. split; [reflexivity|].
    left. split; reflexivity.
  - intros [Hnil|Hex]; [discriminate|].
    destruct (Validate_loop_rejects _ Hex) as [e He].
    exists e. change (List.length (id :: ids) =? 0)%nat with false. cbv iota.
    split; [exact He|].
    destruct (Validate_loop_error _ _ He) as [Ht Hd].
    split; [exact Ht|]. right. exact Hd.
Qed.

Section WithDatabase.

Context {DB : Database Store}.

(** *** newAuthorization *)

Lemma newAuthorization_loop_ok (chTypes : list ChallengeType) :
  forall (az : Authorization) (i : nat) (w w' : W) (az' : Authorization)
         (filled rest : list (option Challenge)),
    Authorization_Challenges az = filled ++ rest ->
    List.length filled = i ->
    (List.length chTypes <= List.length rest)%nat ->
    newAuthorization_loop az i chTypes w = (w', Ok az') ->
    exists ids : list string,
      List.length ids = List.length chTypes /\
      az' = Authorization_with_Challenges az
              (filled ++ map Some (zip_with (newChallenge az) chTypes ids)
                      ++ drop (List.length chTypes) rest) /\
      entropy w' = entropy w /\
      calls w' = calls w
                 ++ map createdChallenge (zip_with (newChallenge az) chTypes ids).
Proof.
  induction chTypes as [|typ chTypes IH];
    intros az i w w' az' filled rest Hch Hi Hlen Hrun.
  - injection Hrun as <- <-. exists []. simpl.
    rewrite drop_0, app_nil_r, <- Hch. now destruct az.
  - destruct rest as [|p rest]; [simpl in Hlen; lia|].
    simpl in Hrun. unfold bind, orReturn, call_CreateChallenge in Hrun.
    destruct (db_CreateChallenge (store w) _) as [s' [id|err]] eqn:Hdb;
      [|discriminate].
    apply IH with (filled := filled ++ [Some (newChallenge az typ id)])
                  (rest := rest) in Hrun.
    + destruct Hrun as (ids & Hids & -> & Hent & Hcalls).
      exists (id :: ids). simpl. split; [now rewrite Hids|].
      split; [|split].
      * unfold Authorization_with_Challenges. simpl. f_equal.
        now rewrite <- app_assoc.
      * exact Hent.
      * rewrite Hcalls. simpl. rewrite <- app_assoc. reflexivity.
    + simpl. rewrite Hch, insert_app_r_alt by lia.
      replace (i - List.length filled)%nat with 0%nat by lia.
      simpl. now rewrite <- app_assoc.
    + rewrite length_app. simpl. lia.
    + simpl in Hlen. lia.
Qed.

Lemma newAuthorization_unfold (ctx : Ctx) (az : Authorization) :
  newAuthorization ctx az =
    (let az := stripWildcard az in
     let chTypes := challengeTypes az in
     let* tok := orReturn (call_Alphanumeric 32)
                   (fun err => WrapErrorISE err "error generating random alphanumeric ID") in
     let az := Authorization_with_Token az tok in
     let az := Authorization_with_Challenges az
                 (replicate (List.length chTypes) None) in
     let* az := newAuthorization_loop az 0 chTypes in
     let* id := orReturn (call_CreateAuthorization az)
                  (fun err => WrapErrorISE err "error creating authorization") in
     ret (Authorization_with_ID az id)).
Proof. reflexivity. Qed.

(** A successful [newAuthorization] drew one token, created one
    challenge per selected type and then the authorization. *)
Lemma newAuthorization_ok (ctx : Ctx) (az : Authorization) (w w' : W)
    (az' : Authorization) :
  newAuthorization ctx az w = (w', Ok az') ->
  exists (tok : string) (ids : list string) (id : string),
    let az1 := Authorization_with_Token (stripWildcard az) tok in
    let chs := zip_with (newChallenge az1) (challengeTypes (stripWildcard az)) ids in
    let az2 := Authorization_with_Challenges az1 (map Some chs) in
    List.length ids = List.length (challengeTypes (stripWildcard az)) /\
    randutil_Alphanumeric (entropy w) 32 = (entropy w', Ok tok) /\
    az' = Authorization_with_ID az2 id /\
    calls w' = calls w ++ [CallAlphanumeric 32 (Ok tok)]
               ++ map createdChallenge chs
               ++ [CallCreateAuthorization az2 (Ok id)].
Proof.
  rewrite newAuthorization_unfold. generalize (stripWildcard az) as az0.
  intros az0. cbv zeta.
  unfold bind at 1, orReturn at 1, call_Alphanumeric.
  destruct (randutil_Alphanumeric (entropy w) 32) as [e1 [tok|err]] eqn:Hrand;
    [|discriminate].
  unfold bind at 1.
  match goal with
  | |- context [newAuthorization_loop ?a 0 ?t ?w0] =>
      destruct (newAuthorization_loop a 0 t w0) as [w1 [az1|err]] eqn:Hloop;
        [|discriminate]
  end.
  apply newAuthorization_loop_ok
    with (filled := [])
         (rest := replicate (List.length (challengeTypes az0)) None)
    in Hloop; [|reflexivity|reflexivity|now rewrite length_replicate].
  destruct Hloop as (ids & Hids & -> & Hent & Hcalls).
  unfold bind, orReturn, call_CreateAuthorization, ret.
  match goal with
  | |- context [db_CreateAuthorization ?s0 ?a] =>
      destruct (db_CreateAuthorization s0 a) as [s2 [id|err]] eqn:Hdb;
        [|discriminate]
  end.
  intros [= <- <-]. exists tok, ids, id. cbv zeta.
  rewrite drop_replicate, Nat.sub_diag, app_nil_r in *. simpl.
  split; [exact Hids|]. split; [now rewrite Hent|]. split; [reflexivity|].
  rewrite Hcalls. simpl. repeat rewrite <- app_assoc. reflexivity.
Qed.

Lemma stripWildcard_prefix (az : Authorization) (rest : string) :
  Identifier_Value (Authorization_Identifier az) = "*." +:+ rest ->
  stripWildcard az =
    Authorization_with_Identifier (Authorization_with_Wildcard az true)
      {| Identifier_Type := Identifier_Type (Authorization_Identifier az);
         Identifier_Value := rest |}.
Proof.
  intros Hval. unfold stripWildcard.
  now rewrite Hval, HasPrefix_app, TrimPrefix_app.
Qed.

Lemma stripWildcard_no_prefix (az : Authorization) :
  (forall rest : string,
     Identifier_Value (Authorization_Identifier az) <> "*." +:+ rest) ->
  stripWildcard az = az.
Proof.
  intros Hno. unfold stripWildcard.
  destruct (HasPrefix _ "*.") eqn:Hp; [|reflexivity].
  apply HasPrefix_inv in Hp as [rest Hp]. now apply Hno in Hp.
Qed.

Lemma challengeTypes_wildcard_DNS (az : Authorization) :
  Identifier_Type (Authorization_Identifier az) = DNS ->
  Authorization_Wildcard az = true ->
  challengeTypes az = [DNS01].
Proof. unfold challengeTypes. now intros -> ->. Qed.

(** C2: the authorization that [newAuthorization] stores for an
    identifier value [*.rest] has the wildcard flag set and the value
    [rest], and for a DNS identifier exactly one challenge, of type
    DNS-01; for a value without the prefix the flag and the identifier
    are stored as they were passed. *)
Theorem newAuthorization_wildcard (ctx : Ctx) (az : Authorization) (w w' : W)
    (az' : Authorization) :
  newAuthorization ctx az w = (w', Ok az') ->
  let ident := Authorization_Identifier az in
  exists (stored : Authorization) (id : string),
    last (calls w') = Some (CallCreateAuthorization stored (Ok id)) /\
    az' = Authorization_with_ID stored id /\
    (forall rest : string,
       Identifier_Value ident = "*." +:+ rest ->
       Authorization_Wildcard stored = true /\
       Authorization_Identifier stored =
         {| Identifier_Type := Identifier_Type ident; Identifier_Value := rest |} /\
       (Identifier_Type ident = DNS ->
        exists ch, Authorization_Challenges stored = [Some ch] /\
                   Challenge_Type ch = DNS01 /\
                   Challenge_Value ch = rest)) /\
    ((forall rest : string, Identifier_Value ident <> "*." +:+ rest) ->
     Authorization_Wildcard stored = Authorization_Wildcard az /\
     Authorization_Identifier stored = ident).
Proof.
  intros Hrun ident.
  destruct (newAuthorization_ok ctx az w w' az' Hrun)
    as (tok & ids & id & Hids & _ & Haz & Hcalls).
  eexists _, id. split; [|split; [exact Haz|split]].
  - rewrite Hcalls, !app_assoc. apply last_snoc.
  - intros rest Hval.
    rewrite (stripWildcard_prefix az rest Hval) in *. fold ident in Hids |- *.
    set (az1 := Authorization_with_Identifier _ _) in *.
    split; [reflexivity|]. split; [reflexivity|].
    intros Hdns.
    assert (Hct : challengeTypes az1 = [DNS01])
      by (apply challengeTypes_wildcard_DNS; [exact Hdns|reflexivity]).
    rewrite Hct in *.
    destruct ids as [|i0 [|i1 ids]]; try discriminate Hids.
    eexists. split; [reflexivity|]. split; reflexivity.
  - intros Hno. rewrite (stripWildcard_no_prefix az Hno). split; reflexivity.
Qed.

(** C7: the token of an authorization created by [newAuthorization] is
    the string that the call drew from the random source with length
    32, hence 32 alphanumeric characters, and every challenge created
    under the authorization carries this token. *)
Theorem newAuthorization_token (ctx : Ctx) (az : Authorization) (w w' : W)
    (az' : Authorization) :
  (forall e n e' s, randutil_Alphanumeric e n = (e', Ok s) ->
                    String.length s = n /\ isAlphanumeric s = true) ->
  newAuthorization ctx az w = (w', Ok az') ->
  let tok := Authorization_Token az' in
  randutil_Alphanumeric (entropy w) 32 = (entropy w', Ok tok) /\
  In (CallAlphanumeric 32 (Ok tok)) (drop (List.length (calls w)) (calls w')) /\
  String.length tok = 32%nat /\
  isAlphanumeric tok = true /\
  Forall (fun c => exists ch, c = Some ch /\ Challenge_Token ch = tok)
    (Authorization_Challenges az') /\
  (forall ch r,
     In (CallCreateChallenge ch r) (drop (List.length (calls w)) (calls w')) ->
     Challenge_Token ch = tok).
Proof.
  intros Hrand Hrun.
  destruct (newAuthorization_ok ctx az w w' az' Hrun)
    as (tok & ids & id & Hids & Hdraw & -> & Hcalls).
  cbn. destruct (Hrand _ _ _ _ Hdraw) as [Hlen Halnum].
  rewrite Hcalls, drop_app_length.
  split; [exact Hdraw|]. split; [now left|]. split; [exact Hlen|].
  split; [exact Halnum|]. split.
  - apply Forall_forall. intros c Hc.
    apply list_elem_of_In, in_map_iff in Hc as (ch & <- & Hch).
    exists ch. split; [reflexivity|].
    apply list_elem_of_In, elem_of_lookup_zip_with in Hch
      as (i & typ & cid & -> & _ & _).
    reflexivity.
  - intros ch r Hin. apply in_app_or in Hin as [[Hin|[]]|Hin]; [discriminate|].
    apply in_app_or in Hin as [Hin|[Hin|[]]]; [|discriminate].
    apply in_map_iff in Hin as (ch0 & Heq & Hch).
    injection Heq as <- _.
    apply list_elem_of_In, elem_of_lookup_zip_with in Hch
      as (i & typ & cid & -> & _ & _).
    reflexivity.
Qed.

(** *** NewOrder *)

Lemma authorizationCalls_app (cs1 cs2 : list Call) :
  authorizationCalls (cs1 ++ cs2) = authorizationCalls cs1 ++ authorizationCalls cs2.
Proof.
  induction cs1 as [|c cs1 IH]; simpl; [reflexivity|].
  destruct c; simpl; now rewrite IH.
Qed.

Lemma authorizationCalls_createdChallenge (chs : list Challenge) :
  authorizationCalls (map createdChallenge chs) = [].
Proof. induction chs as [|ch chs IH]; simpl; [reflexivity|exact IH]. Qed.

Lemma authorizes_stripWildcard (acc : Account) (expires : Time)
    (identifier : Identifier) (tok : string) (chs : list (option Challenge)) :
  authorizes acc expires identifier
    (Authorization_with_Challenges
       (Authorization_with_Token
          (stripWildcard (pendingAuthorization acc expires identifier)) tok)
       chs).
Proof.
  unfold authorizes, stripWildcard, TrimPrefix.
  change (Authorization_Identifier (pendingAuthorization acc expires identifier))
    with identifier.
  destruct (HasPrefix (Identifier_Value identifier) "*.");
    repeat split; reflexivity.
Qed.

Lemma NewOrder_loop_ok (ctx : Ctx) (acc : Account) (ids : list Identifier) :
  forall (o : Order) (i : nat) (w w' : W) (o' : Order)
         (filled rest : list string),
    Order_AuthorizationIDs o = filled ++ rest ->
    List.length filled = i ->
    (List.length ids <= List.length rest)%nat ->
    NewOrder_loop ctx acc o i ids w = (w', Ok o') ->
    exists (azs : list (Authorization * string)) (tr : list Call),
      o' = Order_with_AuthorizationIDs o
             (filled ++ map snd azs ++ drop (List.length ids) rest) /\
      calls w' = calls w ++ tr /\
      authorizationCalls tr = map (fun p => (fst p, Ok (snd p))) azs /\
      Forall2 (authorizes acc (Order_ExpiresAt o)) ids (map fst azs).
Proof.
  induction ids as [|identifier ids IH];
    intros o i w w' o' filled rest Hids Hi Hlen Hrun.
  - injection Hrun as <- <-. exists [], []. simpl.
    rewrite drop_0, !app_nil_r, <- Hids.
    split; [now destruct o|]. repeat split. constructor.
  - destruct rest as [|p rest]; [simpl in Hlen; lia|].
    simpl in Hrun. unfold bind at 1, orReturn at 1 in Hrun.
    fold (pendingAuthorization acc (Order_ExpiresAt o) identifier) in Hrun.
    destruct (newAuthorization ctx _ w) as [w1 [az|err]] eqn:Haz;
      [|discriminate].
    apply newAuthorization_ok in Haz
      as (tok & cids & id & _ & _ & -> & Hcalls1).
    apply IH with (filled := filled ++ [id]) (rest := rest) in Hrun.
    + destruct Hrun as (azs & tr & -> & Hcalls & Hauth & Hall).
      eexists ((_, id) :: azs), _. split; [|split; [|split]].
      * unfold Order_with_AuthorizationIDs. simpl. f_equal.
        now rewrite <- app_assoc.
      * rewrite Hcalls, Hcalls1, <- app_assoc. reflexivity.
      * rewrite !authorizationCalls_app, authorizationCalls_createdChallenge.
        simpl. now rewrite Hauth.
      * simpl. constructor; [|exact Hall]. apply authorizes_stripWildcard.
    + simpl. rewrite Hids, insert_app_r_alt by lia.
      replace (i - List.length filled)%nat with 0%nat by lia.
      simpl. now rewrite <- app_assoc.
    + rewrite length_app. simpl. lia.
    + simpl in Hlen. lia.
Qed.

Lemma NewOrder_loop_error (ctx : Ctx) (acc : Account) (ids : list Identifier) :
  forall (o : Order) (i : nat) (w w' : W) (resp : Response),
    NewOrder_loop ctx acc o i ids w = (w', Err resp) ->
    exists e, resp = RenderError e.
Proof.
  induction ids as [|identifier ids IH]; intros o i w w' resp Hrun;
    [discriminate|].
  simpl in Hrun. unfold bind at 1, orReturn at 1 in Hrun.
  destruct (newAuthorization ctx _ w) as [w1 [az|err]].
  - eapply IH, Hrun.
  - injection Hrun as _ <-. eauto.
Qed.

(** A [NewOrder] that answers with the order has validated the
    request, created the authorizations and then the order. *)
Lemma NewOrder_ok (r : Req) (w w' : W) (acc : Account) (prov : Provisioner)
    (payload : payloadInfo) (nor : NewOrderRequest)
    (status : nat) (location : string) (body : Order) :
  accountFromContext (Request_Context r) = Ok acc ->
  provisionerFromContext (Request_Context r) = Ok prov ->
  payloadFromContext (Request_Context r) = Ok payload ->
  json_Unmarshal_NewOrderRequest (payloadInfo_value payload) = Ok nor ->
  NewOrder r w = (w', RenderJSON status location body) ->
  exists (azs : list (Authorization * string)) (tr : list Call) (id : string),
    let stored := orderFor acc prov nor clock_Now (map snd azs) in
    NewOrderRequest_Validate nor = None /\
    calls w' = calls w ++ tr ++ [CallCreateOrder stored (Ok id)] /\
    authorizationCalls tr = map (fun p => (fst p, Ok (snd p))) azs /\
    Forall2 (authorizes acc (Time_Add clock_Now defaultOrderExpiry))
      (NewOrderRequest_Identifiers nor) (map fst azs) /\
    status = StatusCreated /\
    body = linker_LinkOrder (Request_Context r) (Order_with_ID stored id) /\
    location = linker_GetLink (Request_Context r) OrderLinkType (Order_ID body).
Proof.
  intros Hacc Hprov Hpay Hjson.
  unfold NewOrder, respond.
  unfold bind at 1, orReturn at 1, pure at 1. rewrite Hacc.
  unfold bind at 1, orReturn at 1, pure at 1. rewrite Hprov.
  unfold bind at 1, orReturn at 1, pure at 1. rewrite Hpay.
  unfold bind at 1, orReturn at 1, pure at 1. rewrite Hjson.
  unfold bind at 1, check.
  destruct (NewOrderRequest_Validate nor) as [e|] eqn:Hval;
    [discriminate|].
  unfold ret at 1. cbv zeta. unfold bind at 1.
  match goal with
  | |- context [NewOrder_loop ?c ?a ?o0 0 ?l w] =>
      destruct (NewOrder_loop c a o0 0 l w) as [w1 [o1|resp]] eqn:Hloop
  end.
  2:{ apply NewOrder_loop_error in Hloop as [e ->]. discriminate. }
  apply NewOrder_loop_ok
    with (filled := [])
         (rest := replicate (List.length (NewOrderRequest_Identifiers nor)) "")
    in Hloop; [|reflexivity|reflexivity|now rewrite length_replicate].
  destruct Hloop as (azs & tr & -> & Hcalls & Hauth & Hall).
  cbn [Order_Identifiers] in Hcalls |- *.
  rewrite drop_replicate, Nat.sub_diag, app_nil_r. simpl app.
  unfold bind, orReturn, call_CreateOrder, ret.
  match goal with
  | |- context [db_CreateOrder ?s0 ?o2] =>
      assert (Hstored : o2 = orderFor acc prov nor clock_Now (map snd azs))
  end.
  { unfold orderFor, Order_with_NotBefore, Order_with_NotAfter,
      Order_with_AuthorizationIDs.
    destruct (Time_IsZero (NewOrderRequest_NotBefore nor)) eqn:Hnb;
      destruct (Time_IsZero (NewOrderRequest_NotAfter nor)) eqn:Hna;
      cbn; rewrite ?Hnb, ?Hna; cbn; rewrite ?Hnb, ?Hna; reflexivity. }
  rewrite Hstored.
  destruct (db_CreateOrder (store w1) _) as [s2 [id|err]]; [|discriminate].
  intros [= <- <- <- <-]. exists azs, tr, id. cbv zeta.
  split; [reflexivity|]. split; [cbn; now rewrite Hcalls, <- app_assoc|].
  split; [exact Hauth|]. split; [exact Hall|]. repeat split.
Qed.

(** With a random source and a storage that do not fail, a valid
    request is answered with the order. *)
Lemma newAuthorization_loop_total (chTypes : list ChallengeType) :
  infallibleCreate ->
  forall (az : Authorization) (i : nat) (w : W),
    exists w' az', newAuthorization_loop az i chTypes w = (w', Ok az').
Proof.
  intros (Hch & _ & _).
  induction chTypes as [|typ chTypes IH]; intros az i w; simpl.
  - eexists _, _. reflexivity.
  - unfold bind, orReturn, call_CreateChallenge.
    match goal with
    | |- context [db_CreateChallenge ?s0 ?c] =>
        specialize (Hch s0 c); destruct (db_CreateChallenge s0 c) as [s1 [id|err]]
    end; [|discriminate].
    apply IH.
Qed.

Lemma newAuthorization_total (ctx : Ctx) (az : Authorization) (w : W) :
  infallibleRandom -> infallibleCreate ->
  exists w' az', newAuthorization ctx az w = (w', Ok az').
Proof.
  intros Hrand Hdb. rewrite newAuthorization_unfold. cbv zeta.
  unfold bind at 1, orReturn at 1, call_Alphanumeric.
  specialize (Hrand (entropy w) 32%nat).
  destruct (randutil_Alphanumeric (entropy w) 32) as [e1 [tok|err]];
    [|discriminate].
  unfold bind at 1.
  match goal with
  | |- context [newAuthorization_loop ?a 0 ?t ?w0] =>
      destruct (newAuthorization_loop_total t Hdb a 0%nat w0) as (w1 & az1 & ->)
  end.
  unfold bind, orReturn, call_CreateAuthorization, ret.
  destruct Hdb as (_ & Haz & _). specialize (Haz (store w1) az1).
  destruct (db_CreateAuthorization (store w1) az1) as [s2 [id|err]];
    [|discriminate].
  eexists _, _. reflexivity.
Qed.

Lemma NewOrder_loop_total (ctx : Ctx) (acc : Account) (ids : list Identifier) :
  infallibleRandom -> infallibleCreate ->
  forall (o : Order) (i : nat) (w : W),
    exists w' o', NewOrder_loop ctx acc o i ids w = (w', Ok o').
Proof.
  intros Hrand Hdb.
  induction ids as [|identifier ids IH]; intros o i w; simpl.
  - eexists _, _. reflexivity.
  - unfold bind at 1, orReturn at 1.
    match goal with
    | |- context [newAuthorization ctx ?a w] =>
        destruct (newAuthorization_total ctx a w Hrand Hdb) as (w1 & az1 & ->)
    end.
    apply IH.
Qed.

Lemma NewOrder_total (r : Req) (w : W) (acc : Account) (prov : Provisioner)
    (payload : payloadInfo) (nor : NewOrderRequest) :
  accountFromContext (Request_Context r) = Ok acc ->
  provisionerFromContext (Request_Context r) = Ok prov ->
  payloadFromContext (Request_Context r) = Ok payload ->
  json_Unmarshal_NewOrderRequest (payloadInfo_value payload) = Ok nor ->
  NewOrderRequest_Validate nor = None ->
  infallibleRandom -> infallibleCreate ->
  exists w' location body,
    NewOrder r w = (w', RenderJSON StatusCreated location body).
Proof.
  intros Hacc Hprov Hpay Hjson Hval Hrand Hdb.
  unfold NewOrder, respond.
  unfold bind at 1, orReturn at 1, pure at 1. rewrite Hacc.
  unfold bind at 1, orReturn at 1, pure at 1. rewrite Hprov.
  unfold bind at 1, orReturn at 1, pure at 1. rewrite Hpay.
  unfold bind at 1, orReturn at 1, pure at 1. rewrite Hjson.
  unfold bind at 1, check. rewrite Hval.
  unfold ret at 1. cbv zeta. unfold bind at 1.
  match goal with
  | |- context [NewOrder_loop ?c ?a ?o0 0 ?l w] =>
      destruct (NewOrder_loop_total c a l Hrand Hdb o0 0%nat w) as (w1 & o1 & ->)
  end.
  unfold bind, orReturn, call_CreateOrder, ret.
  destruct Hdb as (_ & _ & Hord).
  match goal with
  | |- context [db_CreateOrder ?s0 ?o2] =>
      specialize (Hord s0 o2); destruct (db_CreateOrder s0 o2) as [s2 [id|err]]
  end; [|discriminate].
  eexists _, _, _. reflexivity.
Qed.

(** C4: a new-order request whose identifier list is empty, or holds
    an identifier of a type other than DNS and IP, or an IP identifier
    whose value does not parse, is answered with a malformed-input
    error, which for an unparseable IP address names its value; the
    world is left as it was, so no order, authorization or challenge
    has been handed to the storage. *)
Theorem NewOrder_invalid_identifiers (r : Req) (w : W) (acc : Account)
    (prov : Provisioner) (payload : payloadInfo) (nor : NewOrderRequest) :
  accountFromContext (Request_Context r) = Ok acc ->
  provisionerFromContext (Request_Context r) = Ok prov ->
  payloadFromContext (Request_Context r) = Ok payload ->
  json_Unmarshal_NewOrderRequest (payloadInfo_value payload) = Ok nor ->
  invalidIdentifiers (NewOrderRequest_Identifiers nor) ->
  exists e,
    NewOrder r w = (w, RenderError e) /\
    Error_Type e = ErrorMalformedType /\
    ((NewOrderRequest_Identifiers nor = [] /\
      Error_Detail e = "identifiers list cannot be empty") \/
     (exists id, In id (NewOrderRequest_Identifiers nor) /\ unsupportedType id /\
                 Error_Detail e = "identifier type unsupported: " +:+ Identifier_Type id) \/
     (exists id, In id (NewOrderRequest_Identifiers nor) /\ unparseableIP id /\
                 Error_Detail e = "invalid IP address: " +:+ Identifier_Value id)) /\
    store (fst (NewOrder r w)) = store w /\
    calls (fst (NewOrder r w)) = calls w.
Proof.
  intros Hacc Hprov Hpay Hjson Hinv.
  destruct (Validate_rejects nor Hinv) as (e & Hval & Ht & Hd).
  assert (Hrun : NewOrder r w = (w, RenderError e)).
  { unfold NewOrder, respond.
    unfold bind at 1, orReturn at 1, pure at 1. rewrite Hacc.
    unfold bind at 1, orReturn at 1, pure at 1. rewrite Hprov.
    unfold bind at 1, orReturn at 1, pure at 1. rewrite Hpay.
    unfold bind at 1, orReturn at 1, pure at 1. rewrite Hjson.
    unfold bind at 1, check. rewrite Hval. reflexivity. }
  exists e. rewrite Hrun. repeat split; assumption.
Qed.

(** C5: for a valid identifier list, and when the random source and
    the storage do not fail, [NewOrder] answers with the order; and
    whenever it does, the order handed to the storage is pending and
    expires 24 hours after now, one authorization has been created for
    each identifier, in the order of the identifiers and with the
    expiry of the order, and the authorization IDs of the order are
    the IDs of these authorizations, position by position, so that
    there are as many of them as identifiers. *)
Theorem NewOrder_authorizations (r : Req) (w : W) (acc : Account)
    (prov : Provisioner) (payload : payloadInfo) (nor : NewOrderRequest) :
  accountFromContext (Request_Context r) = Ok acc ->
  provisionerFromContext (Request_Context r) = Ok prov ->
  payloadFromContext (Request_Context r) = Ok payload ->
  json_Unmarshal_NewOrderRequest (payloadInfo_value payload) = Ok nor ->
  NewOrderRequest_Validate nor = None ->
  (infallibleRandom -> infallibleCreate ->
   exists w' location body,
     NewOrder r w = (w', RenderJSON StatusCreated location body)) /\
  (forall (w' : W) (status : nat) (location : string) (body : Order),
     NewOrder r w = (w', RenderJSON status location body) ->
     exists (stored : Order) (id : string) (azs : list (Authorization * string)),
       last (calls w') = Some (CallCreateOrder stored (Ok id)) /\
       body = linker_LinkOrder (Request_Context r) (Order_with_ID stored id) /\
       Order_Status stored = StatusPending /\
       Order_ExpiresAt stored = clock_Now + 24 * 3600 * 1000000000 /\
       Order_Identifiers stored = NewOrderRequest_Identifiers nor /\
       authorizationCalls (drop (List.length (calls w)) (calls w'))
         = map (fun p => (fst p, Ok (snd p))) azs /\
       Forall2 (authorizes acc (Order_ExpiresAt stored))
         (Order_Identifiers stored) (map fst azs) /\
       Order_AuthorizationIDs stored = map snd azs /\
       List.length (Order_AuthorizationIDs stored)
         = List.length (Order_Identifiers stored)).
Proof.
  intros Hacc Hprov Hpay Hjson Hval. split.
  - intros Hrand Hdb.
    now apply NewOrder_total with acc prov payload nor.
  - intros w' status location body Hrun.
    destruct (NewOrder_ok r w w' acc prov payload nor status location body
                Hacc Hprov Hpay Hjson Hrun)
      as (azs & tr & id & _ & Hcalls & Hauth & Hall & _ & Hbody & _).
    eexists _, id, azs. split; [|split; [exact Hbody|]].
    + rewrite Hcalls, app_assoc. apply last_snoc.
    + cbn [orderFor Order_Status Order_ExpiresAt Order_Identifiers
           Order_AuthorizationIDs].
      split; [reflexivity|]. split; [reflexivity|]. split; [reflexivity|].
      split.
      { rewrite Hcalls, drop_app_length, authorizationCalls_app. simpl.
        now rewrite app_nil_r. }
      split; [exact Hall|]. split; [reflexivity|].
      apply Forall2_length in Hall.
      rewrite !length_map in *. now rewrite Hall.
Qed.

(** C6, as the code has it: for a request without notBefore and
    notAfter, the order handed to the storage has notBefore one minute
    before now and notAfter at now plus the provisioner's default
    duration, that is one minute and the default duration after its
    notBefore. *)
Theorem NewOrder_default_window (r : Req) (w w' : W) (acc : Account)
    (prov : Provisioner) (payload : payloadInfo) (nor : NewOrderRequest)
    (status : nat) (location : string) (body : Order) :
  accountFromContext (Request_Context r) = Ok acc ->
  provisionerFromContext (Request_Context r) = Ok prov ->
  payloadFromContext (Request_Context r) = Ok payload ->
  json_Unmarshal_NewOrderRequest (payloadInfo_value payload) = Ok nor ->
  Time_IsZero (NewOrderRequest_NotBefore nor) = true ->
  Time_IsZero (NewOrderRequest_NotAfter nor) = true ->
  NewOrder r w = (w', RenderJSON status location body) ->
  exists (stored : Order) (id : string),
    last (calls w') = Some (CallCreateOrder stored (Ok id)) /\
    body = linker_LinkOrder (Request_Context r) (Order_with_ID stored id) /\
    Order_NotBefore stored = clock_Now - 60 * 1000000000 /\
    Order_NotAfter stored = clock_Now + Provisioner_DefaultTLSCertDuration prov /\
    Order_NotAfter stored
      = Order_NotBefore stored + 60 * 1000000000
        + Provisioner_DefaultTLSCertDuration prov.
Proof.
  intros Hacc Hprov Hpay Hjson Hnb Hna Hrun.
  destruct (NewOrder_ok r w w' acc prov payload nor status location body
              Hacc Hprov Hpay Hjson Hrun)
    as (azs & tr & id & _ & Hcalls & _ & _ & _ & Hbody & _).
  eexists _, id. split; [|split; [exact Hbody|]].
  - rewrite Hcalls, app_assoc. apply last_snoc.
  - cbn [orderFor Order_NotBefore Order_NotAfter]. rewrite Hnb, Hna.
    unfold Time_Add, defaultOrderBackdate, Minute, Second, Nanosecond.
    repeat split; lia.
Qed.

(** *** The ownership guard *)

Lemma GetOrder_notOwner (r : Req) (w : W) (acc : Account) (prov : Provisioner)
    (o : Order) :
  accountFromContext (Request_Context r) = Ok acc ->
  provisionerFromContext (Request_Context r) = Ok prov ->
  db_GetOrder (store w) (chi_URLParam r "ordID") = Ok o ->
  notOwner acc prov o ->
  exists e,
    GetOrder r w =
      (mkWorld (store w) (entropy w)
         (calls w ++ [CallGetOrder (chi_URLParam r "ordID")]),
       RenderError e) /\
    Error_Type e = ErrorUnauthorizedType.
Proof.
  intros Hacc Hprov Hget Hno.
  unfold GetOrder, respond, bind, orReturn, pure, call_GetOrder, fail.
  rewrite Hacc, Hprov. cbn. rewrite Hget.
  destruct (String.eqb_spec (Account_ID acc) (Order_AccountID o)) as [Ea|Ea]; cbn.
  - destruct (String.eqb_spec (Provisioner_GetID prov) (Order_ProvisionerID o))
      as [Ep|Ep]; cbn.
    + destruct Hno; contradiction.
    + eexists. split; reflexivity.
  - eexists. split; reflexivity.
Qed.

Lemma FinalizeOrder_rejected (r : Req) (w : W) (acc : Account)
    (prov : Provisioner) (payload : payloadInfo) (csr : string) (e : Error) :
  accountFromContext (Request_Context r) = Ok acc ->
  provisionerFromContext (Request_Context r) = Ok prov ->
  payloadFromContext (Request_Context r) = Ok payload ->
  json_Unmarshal_FinalizeRequest (payloadInfo_value payload) = Ok csr ->
  snd (FinalizeRequest_Validate (mkFinalizeRequest csr None)) = Some e ->
  FinalizeOrder r w = (w, RenderError e).
Proof.
  intros Hacc Hprov Hpay Hjson Hval.
  unfold FinalizeOrder, respond, bind, orReturn, pure.
  rewrite Hacc, Hprov, Hpay. cbn. rewrite Hjson.
  destruct (FinalizeRequest_Validate _) as [fr err]. simpl in Hval. subst err.
  reflexivity.
Qed.

Lemma FinalizeOrder_notOwner (r : Req) (w : W) (acc : Account)
    (prov : Provisioner) (payload : payloadInfo) (csr : string) (o : Order) :
  accountFromContext (Request_Context r) = Ok acc ->
  provisionerFromContext (Request_Context r) = Ok prov ->
  payloadFromContext (Request_Context r) = Ok payload ->
  json_Unmarshal_FinalizeRequest (payloadInfo_value payload) = Ok csr ->
  snd (FinalizeRequest_Validate (mkFinalizeRequest csr None)) = None ->
  db_GetOrder (store w) (chi_URLParam r "ordID") = Ok o ->
  notOwner acc prov o ->
  exists e,
    FinalizeOrder r w =
      (mkWorld (store w) (entropy w)
         (calls w ++ [CallGetOrder (chi_URLParam r "ordID")]),
       RenderError e) /\
    Error_Type e = ErrorUnauthorizedType.
Proof.
  intros Hacc Hprov Hpay Hjson Hval Hget Hno.
  unfold FinalizeOrder, respond, bind, orReturn, pure, call_GetOrder, fail.
  rewrite Hacc, Hprov, Hpay. cbn. rewrite Hjson.
  destruct (FinalizeRequest_Validate _) as [fr err]. simpl in Hval. subst err.
  cbn. rewrite Hget.
  destruct (String.eqb_spec (Account_ID acc) (Order_AccountID o)) as [Ea|Ea]; cbn.
  - destruct (String.eqb_spec (Provisioner_GetID prov) (Order_ProvisionerID o))
      as [Ep|Ep]; cbn.
    + destruct Hno; contradiction.
    + eexists. split; reflexivity.
  - eexists. split; reflexivity.
Qed.

(** C1: when the order fetched by [GetOrder] or by [FinalizeOrder]
    belongs to another account or to another provisioner than the
    authenticated ones, the handler renders an unauthorized error, so
    the response does not carry the order. *)
Theorem ownership_guard_unauthorized (r : Req) (w : W) (acc : Account)
    (prov : Provisioner) (o : Order) :
  accountFromContext (Request_Context r) = Ok acc ->
  provisionerFromContext (Request_Context r) = Ok prov ->
  db_GetOrder (store w) (chi_URLParam r "ordID") = Ok o ->
  notOwner acc prov o ->
  (exists e, snd (GetOrder r w) = RenderError e /\
             Error_Type e = ErrorUnauthorizedType) /\
  (forall (payload : payloadInfo) (csr : string),
     payloadFromContext (Request_Context r) = Ok payload ->
     json_Unmarshal_FinalizeRequest (payloadInfo_value payload) = Ok csr ->
     snd (FinalizeRequest_Validate (mkFinalizeRequest csr None)) = None ->
     exists e, snd (FinalizeOrder r w) = RenderError e /\
               Error_Type e = ErrorUnauthorizedType).
Proof.
  intros Hacc Hprov Hget Hno. split.
  - destruct (GetOrder_notOwner r w acc prov o Hacc Hprov Hget Hno)
      as (e & -> & He).
    exists e. split; [reflexivity|exact He].
  - intros payload csr Hpay Hjson Hval.
    destruct (FinalizeOrder_notOwner r w acc prov payload csr o
                Hacc Hprov Hpay Hjson Hval Hget Hno) as (e & -> & He).
    exists e. split; [reflexivity|exact He].
Qed.

(** C8: when the CSR of a finalize request does not decode, does not
    parse or fails its signature check, [FinalizeOrder] renders a
    malformed-input error and leaves the world as it found it: nothing
    is written to the storage, so the stored order keeps its status. *)
Theorem FinalizeOrder_invalid_csr (r : Req) (w : W) (acc : Account)
    (prov : Provisioner) (payload : payloadInfo) (csr : string) :
  accountFromContext (Request_Context r) = Ok acc ->
  provisionerFromContext (Request_Context r) = Ok prov ->
  payloadFromContext (Request_Context r) = Ok payload ->
  json_Unmarshal_FinalizeRequest (payloadInfo_value payload) = Ok csr ->
  invalidCSR csr ->
  exists w' e,
    FinalizeOrder r w = (w', RenderError e) /\
    Error_Type e = ErrorMalformedType /\
    store w' = store w /\
    (forall id, db_GetOrder (store w') id = db_GetOrder (store w) id).
Proof.
  intros Hacc Hprov Hpay Hjson Hinv.
  destruct (invalidCSR_Validate csr None Hinv) as [e He].
  exists w, e. split; [|split; [|split]].
  - now apply FinalizeOrder_rejected with acc prov payload csr.
  - now apply FinalizeRequest_Validate_malformed in He.
  - reflexivity.
  - reflexivity.
Qed.

(** C10: when the ownership check of [GetOrder] fails, the handler has
    made one storage call, the read of the order: the status
    recomputation is not called and the storage is as before. *)
Theorem GetOrder_guard_before_UpdateStatus (r : Req) (w : W) (acc : Account)
    (prov : Provisioner) (o : Order) :
  accountFromContext (Request_Context r) = Ok acc ->
  provisionerFromContext (Request_Context r) = Ok prov ->
  db_GetOrder (store w) (chi_URLParam r "ordID") = Ok o ->
  notOwner acc prov o ->
  let w' := fst (GetOrder r w) in
  store w' = store w /\
  calls w' = calls w ++ [CallGetOrder (chi_URLParam r "ordID")] /\
  (forall o', ~ In (CallUpdateStatus o') (drop (List.length (calls w)) (calls w'))) /\
  db_GetOrder (store w') (chi_URLParam r "ordID") = Ok o.
Proof.
  intros Hacc Hprov Hget Hno.
  destruct (GetOrder_notOwner r w acc prov o Hacc Hprov Hget Hno)
    as (e & -> & _).
  cbn. repeat split; [|exact Hget].
  intros o'. rewrite drop_app_length. simpl. intros [H|[]]. discriminate.
Qed.

End WithDatabase.

(** C9: [FinalizeOrder] unmarshals the payload and validates the CSR
    before it fetches the order: for a request whose payload does not
    unmarshal or whose CSR is invalid, the rendered error is malformed
    input and is the same whatever the storage is and holds, and the
    handler makes no collaborator call, in particular no read and no
    write of the order. *)
Theorem FinalizeOrder_validates_before_fetch (r : Req) (acc : Account)
    (prov : Provisioner) (payload : payloadInfo) :
  accountFromContext (Request_Context r) = Ok acc ->
  provisionerFromContext (Request_Context r) = Ok prov ->
  payloadFromContext (Request_Context r) = Ok payload ->
  (exists err, json_Unmarshal_FinalizeRequest (payloadInfo_value payload) = Err err) \/
  (exists csr, json_Unmarshal_FinalizeRequest (payloadInfo_value payload) = Ok csr /\
               invalidCSR csr) ->
  exists e,
    Error_Type e = ErrorMalformedType /\
    forall (db : Database Store) (w : W),
      FinalizeOrder r w = (w, RenderError e) /\
      calls (fst (FinalizeOrder r w)) = calls w.
Proof.
  intros Hacc Hprov Hpay [[err Hjson]|(csr & Hjson & Hinv)].
  - eexists. split; [|intros db w].
    2:{ unfold FinalizeOrder, respond, bind, orReturn, pure.
        rewrite Hacc, Hprov, Hpay. cbn. rewrite Hjson. cbn.
        split; reflexivity. }
    reflexivity.
  - destruct (invalidCSR_Validate csr None Hinv) as [e He].
    exists e. split; [now apply FinalizeRequest_Validate_malformed in He|].
    intros db w.
    rewrite (FinalizeOrder_rejected r w acc prov payload csr e
               Hacc Hprov Hpay Hjson He).
    split; reflexivity.
Qed.

End ApiProperties.

(** * Further properties *)

Section Validation.

Context {Req Ctx CertificateRequest Authority Store Entropy : Type}.
Context {RT : Runtime Req Ctx CertificateRequest Authority Store Entropy}.

Lemma Validate_loop_accepts_iff (ids : list Identifier) :
  Validate_loop ids = None <-> Forall acceptable ids.
Proof.
  induction ids as [|id ids IH]; simpl; [split; [constructor|reflexivity]|].
  rewrite Forall_cons. unfold acceptable at 1.
  destruct (String.eqb_spec (Identifier_Type id) DNS) as [HD|HD].
  - assert (HI : String.eqb (Identifier_Type id) IP = false)
      by (rewrite HD; reflexivity).
    rewrite HI. simpl. rewrite IH. split; [intros H; split; [now left|exact H]|].
    now intros [_ H].
  - destruct (String.eqb_spec (Identifier_Type id) IP) as [HI|HI]; simpl.
    + destruct (net_ParseIP (Identifier_Value id)) as [ip|] eqn:Hparse; simpl.
      * rewrite IH. split; [intros H; split; [right; eauto|exact H]|].
        now intros [_ H].
      * split; [discriminate|].
        intros [[Hd|[_ [ip Hp]]] _]; [contradiction|discriminate].
    + split; [discriminate|].
      intros [[Hd|[Hi _]] _]; contradiction.
Qed.

Lemma Validate_accepted (nor : NewOrderRequest) :
  NewOrderRequest_Validate nor = None ->
  Forall acceptable (NewOrderRequest_Identifiers nor).
Proof.
  unfold NewOrderRequest_Validate.
  destruct (NewOrderRequest_Identifiers nor) as [|id ids]; [discriminate|].
  change (List.length (id :: ids) =? 0)%nat with false. cbv iota.
  apply Validate_loop_accepts_iff.
Qed.

(** X1: [Validate] accepts a new-order request exactly when its
    identifier list is not empty and every identifier is a DNS
    identifier, whatever its value, or an IP identifier whose value
    parses. *)
Theorem Validate_accepts_iff (nor : NewOrderRequest) :
  NewOrderRequest_Validate nor = None <->
  NewOrderRequest_Identifiers nor <> [] /\
  Forall acceptable (NewOrderRequest_Identifiers nor).
Proof.
  unfold NewOrderRequest_Validate.
  destruct (NewOrderRequest_Identifiers nor) as [|id ids].
  - simpl. split; [discriminate|]. intros [H _]. now contradiction H.
  - change (List.length (id :: ids) =? 0)%nat with false. cbv iota.
    rewrite Validate_loop_accepts_iff. split; [intros H; split; [discriminate|exact H]|].
    now intros [_ H].
Qed.

Lemma Validate_loop_skips (good rest : list Identifier) :
  Forall acceptable good ->
  Validate_loop (good ++ rest) = Validate_loop rest.
Proof.
  induction good as [|id good IH]; intros Hgood; [reflexivity|].
  inversion Hgood as [|? ? Hid Hrest]; subst. simpl.
  destruct Hid as [Hd|[Hi [ip Hp]]].
  - rewrite Hd. simpl. now apply IH.
  - rewrite Hi, Hp. simpl. now apply IH.
Qed.

(** X2: the error of [Validate] is decided by the first identifier that
    is not acceptable: the identifiers after it are not looked at, an
    unsupported type is reported with the type, and an IP value that does
    not parse with the value. *)
Theorem Validate_first_offender (nor : NewOrderRequest)
    (good rest : list Identifier) (bad : Identifier) :
  NewOrderRequest_Identifiers nor = good ++ bad :: rest ->
  Forall acceptable good ->
  (unsupportedType bad ->
   NewOrderRequest_Validate nor
     = Some (NewError ErrorMalformedType
               ("identifier type unsupported: " +:+ Identifier_Type bad))) /\
  (unparseableIP bad ->
   NewOrderRequest_Validate nor
     = Some (NewError ErrorMalformedType
               ("invalid IP address: " +:+ Identifier_Value bad))).
Proof.
  intros Hids Hgood. unfold NewOrderRequest_Validate. rewrite Hids.
  assert (Hne : (List.length (good ++ bad :: rest) =? 0)%nat = false).
  { rewrite length_app. simpl. apply Nat.eqb_neq. lia. }
  rewrite Hne, (Validate_loop_skips good (bad :: rest) Hgood). simpl.
  split.
  - intros [HnD HnI].
    destruct (String.eqb_spec (Identifier_Type bad) DNS); [contradiction|].
    destruct (String.eqb_spec (Identifier_Type bad) IP); [contradiction|].
    reflexivity.
  - intros [HI Hnil]. rewrite HI, Hnil. reflexivity.
Qed.

(** X3: [FinalizeRequest.Validate] accepts a request exactly when its
    CSR decodes, the bytes parse and the parsed request passes its
    signature check; it then leaves the parsed request in the [csr]
    field. *)
Theorem FinalizeRequest_Validate_accepts_iff (f f' : FinalizeRequest) :
  FinalizeRequest_Validate f = (f', None) <->
  exists b c,
    base64_RawURLEncoding_DecodeString (FinalizeRequest_CSR f) = Ok b /\
    x509_ParseCertificateRequest b = Ok c /\
    CertificateRequest_CheckSignature c = None /\
    f' = mkFinalizeRequest (FinalizeRequest_CSR f) (Some c).
Proof.
  unfold FinalizeRequest_Validate. split.
  - destruct (base64_RawURLEncoding_DecodeString _) as [b|err] eqn:Hb;
      [|discriminate].
    destruct (x509_ParseCertificateRequest b) as [c|err] eqn:Hc; [|discriminate].
    destruct (CertificateRequest_CheckSignature c) eqn:Hsig; [discriminate|].
    intros [= <-]. exists b, c. repeat split; assumption.
  - intros (b & c & -> & -> & -> & ->). reflexivity.
Qed.

End Validation.

Section AuthorizationFactory.

Context {Req Ctx CertificateRequest Authority Store Entropy : Type}.
Context {RT : Runtime Req Ctx CertificateRequest Authority Store Entropy}.
Context {DB : Database Store}.

Abbreviation W := (World Store Entropy).

Lemma orderCalls_app (cs1 cs2 : list Call) :
  orderCalls (cs1 ++ cs2) = orderCalls cs1 ++ orderCalls cs2.
Proof.
  induction cs1 as [|c cs1 IH]; simpl; [reflexivity|].
  destruct c; simpl; now rewrite IH.
Qed.

Lemma orderCalls_createdChallenge (chs : list Challenge) :
  orderCalls (map createdChallenge chs) = [].
Proof. induction chs as [|ch chs IH]; simpl; [reflexivity|exact IH]. Qed.

Lemma Challenge_Type_newChallenge (az : Authorization)
    (chTypes : list ChallengeType) :
  forall ids : list string,
    List.length ids = List.length chTypes ->
    map Challenge_Type (zip_with (newChallenge az) chTypes ids) = chTypes.
Proof.
  induction chTypes as [|typ chTypes IH]; intros [|id ids] Hlen;
    try discriminate; [reflexivity|].
  simpl. f_equal. apply IH. now injection Hlen.
Qed.

Lemma newChallenge_fields (az : Authorization) (chTypes : list ChallengeType)
    (ids : list string) :
  Forall (fun ch =>
            Challenge_Value ch = Identifier_Value (Authorization_Identifier az) /\
            Challenge_AccountID ch = Authorization_AccountID az /\
            Challenge_Status ch = StatusPending /\
            Challenge_Token ch = Authorization_Token az)
    (zip_with (newChallenge az) chTypes ids).
Proof.
  apply Forall_forall. intros ch Hch.
  apply elem_of_lookup_zip_with in Hch as (i & typ & id & -> & _ & _).
  repeat split.
Qed.

Lemma challengeTypes_stripWildcard_fields (az : Authorization) (tok : string)
    (chs : list (option Challenge)) :
  challengeTypes
    (Authorization_with_Challenges (Authorization_with_Token az tok) chs)
  = challengeTypes az.
Proof. reflexivity. Qed.

(** A failed challenge loop stopped at the first challenge that the
    storage refused. *)
Lemma newAuthorization_loop_failed (chTypes : list ChallengeType) :
  forall (az : Authorization) (i : nat) (w w' : W) (e : Error),
    newAuthorization_loop az i chTypes w = (w', Err e) ->
    exists (ids : list string) (typ : ChallengeType) (err : goerror),
      chTypes !! List.length ids = Some typ /\
      e = WrapErrorISE err "error creating challenge" /\
      entropy w' = entropy w /\
      calls w' = calls w
                 ++ map createdChallenge (zip_with (newChallenge az) chTypes ids)
                 ++ [CallCreateChallenge (newChallenge az typ "") (Err err)].
Proof.
  induction chTypes as [|typ chTypes IH]; intros az i w w' e Hrun;
    [discriminate|].
  simpl in Hrun. unfold bind, orReturn, call_CreateChallenge in Hrun.
  destruct (db_CreateChallenge (store w) _) as [s' [id|err]] eqn:Hdb.
  - apply IH in Hrun as (ids & typ' & err & Hlook & -> & Hent & Hcalls).
    exists (id :: ids), typ', err. split; [exact Hlook|].
    split; [reflexivity|]. split; [exact Hent|].
    rewrite Hcalls. simpl. rewrite <- app_assoc. reflexivity.
  - injection Hrun as <- <-. exists [], typ, err. repeat split.
Qed.

(** The three ways in which [newAuthorization] fails. *)
Lemma newAuthorization_failed (ctx : Ctx) (az : Authorization) (w w' : W)
    (e : Error) :
  newAuthorization ctx az w = (w', Err e) ->
  (exists err,
     e = WrapErrorISE err "error generating random alphanumeric ID" /\
     store w' = store w /\
     calls w' = calls w ++ [CallAlphanumeric 32 (Err err)]) \/
  (exists tok chs ch err,
     e = WrapErrorISE err "error creating challenge" /\
     calls w' = calls w ++ [CallAlphanumeric 32 (Ok tok)]
                ++ map createdChallenge chs
                ++ [CallCreateChallenge ch (Err err)]) \/
  (exists tok chs az1 err,
     e = WrapErrorISE err "error creating authorization" /\
     calls w' = calls w ++ [CallAlphanumeric 32 (Ok tok)]
                ++ map createdChallenge chs
                ++ [CallCreateAuthorization az1 (Err err)]).
Proof.
  rewrite newAuthorization_unfold. generalize (stripWildcard az) as az0.
  intros az0. cbv zeta.
  unfold bind at 1, orReturn at 1, call_Alphanumeric.
  destruct (randutil_Alphanumeric (entropy w) 32) as [e1 [tok|err]] eqn:Hrand.
  2:{ intros [= <- <-]. left. exists err. repeat split. }
  unfold bind at 1.
  match goal with
  | |- context [newAuthorization_loop ?a 0 ?t ?w0] =>
      destruct (newAuthorization_loop a 0 t w0) as [w1 [az1|err]] eqn:Hloop
  end.
  - apply newAuthorization_loop_ok
      with (filled := [])
           (rest := replicate (List.length (challengeTypes az0)) None)
      in Hloop; [|reflexivity|reflexivity|now rewrite length_replicate].
    destruct Hloop as (ids & Hids & -> & Hent & Hcalls).
    unfold bind, orReturn, call_CreateAuthorization, ret.
    match goal with
    | |- context [db_CreateAuthorization ?s0 ?a] =>
        destruct (db_CreateAuthorization s0 a) as [s2 [id|err]] eqn:Hdb
    end; [discriminate|].
    intros [= <- <-]. right. right. eexists tok, _, _, err.
    split; [reflexivity|]. cbn [calls]. rewrite Hcalls. cbn [calls].
    repeat rewrite <- app_assoc. reflexivity.
  - apply newAuthorization_loop_failed in Hloop
      as (ids & typ & err' & _ & -> & _ & Hcalls).
    intros [= <- <-]. right. left. eexists tok, _, _, err'.
    split; [reflexivity|]. rewrite Hcalls. cbn [calls].
    repeat rewrite <- app_assoc. reflexivity.
Qed.

(** X4: when the random source fails, [newAuthorization] returns the
    failure wrapped as "error generating random alphanumeric ID" and has
    made no storage call: the storage is unchanged and the trace gained
    the failed draw only. *)
Theorem newAuthorization_random_failure (ctx : Ctx) (az : Authorization)
    (w : W) (e' : Entropy) (err : goerror) :
  randutil_Alphanumeric (entropy w) 32 = (e', Err err) ->
  newAuthorization ctx az w
    = (mkWorld (store w) e' (calls w ++ [CallAlphanumeric 32 (Err err)]),
       Err (WrapErrorISE err "error generating random alphanumeric ID")).
Proof.
  intros Hrand. rewrite newAuthorization_unfold. cbv zeta.
  unfold bind at 1, orReturn at 1, call_Alphanumeric. rewrite Hrand.
  reflexivity.
Qed.


(** X6: a successful [newAuthorization] has drawn the token, then
    created one challenge for each type that [challengeTypes] selects,
    in that order, and last the authorization.  The authorization
    handed to the storage holds these challenges with the IDs the
    storage gave them, no entry of its list is nil, and each challenge
    has the account, the stripped identifier value and the token of the
    authorization, in status pending. *)
Theorem newAuthorization_calls (ctx : Ctx) (az : Authorization) (w w' : W)
    (az' : Authorization) :
  newAuthorization ctx az w = (w', Ok az') ->
  exists (tok : string) (chs : list Challenge) (stored : Authorization)
         (id : string),
    calls w' = calls w ++ [CallAlphanumeric 32 (Ok tok)]
               ++ map createdChallenge chs
               ++ [CallCreateAuthorization stored (Ok id)] /\
    az' = Authorization_with_ID stored id /\
    Authorization_Token stored = tok /\
    Authorization_Challenges stored = map Some chs /\
    map Challenge_Type chs = challengeTypes stored /\
    Forall (fun ch =>
              Challenge_Value ch
                = Identifier_Value (Authorization_Identifier stored) /\
              Challenge_AccountID ch = Authorization_AccountID az /\
              Challenge_Status ch = StatusPending /\
              Challenge_Token ch = tok) chs.
Proof.
  intros Hrun.
  destruct (newAuthorization_ok ctx az w w' az' Hrun)
    as (tok & ids & id & Hids & _ & Haz & Hcalls).
  eexists tok, _, _, id. split; [exact Hcalls|]. split; [exact Haz|].
  split; [reflexivity|]. split; [reflexivity|]. split.
  - rewrite challengeTypes_stripWildcard_fields.
    now apply Challenge_Type_newChallenge.
  - eapply Forall_impl; [apply newChallenge_fields|].
    intros ch (Hv & Ha & Hs & Ht). repeat split; try assumption.
    rewrite Ha. unfold stripWildcard.
    now destruct (HasPrefix _ "*.").
Qed.

End AuthorizationFactory.

Section OrderCreation.

Context {Req Ctx CertificateRequest Authority Store Entropy : Type}.
Context {RT : Runtime Req Ctx CertificateRequest Authority Store Entropy}.
Context {DB : Database Store}.

Abbreviation W := (World Store Entropy).

(** The successful fan-out, with the authorizations as the factory built
    them. *)
Lemma NewOrder_loop_created (ctx : Ctx) (acc : Account) (ids : list Identifier) :
  forall (o : Order) (i : nat) (w w' : W) (o' : Order)
         (filled rest : list string),
    Order_AuthorizationIDs o = filled ++ rest ->
    List.length filled = i ->
    (List.length ids <= List.length rest)%nat ->
    NewOrder_loop ctx acc o i ids w = (w', Ok o') ->
    exists (azs : list (Authorization * string)) (tr : list Call),
      o' = Order_with_AuthorizationIDs o
             (filled ++ map snd azs ++ drop (List.length ids) rest) /\
      calls w' = calls w ++ tr /\
      authorizationCalls tr = map (fun p => (fst p, Ok (snd p))) azs /\
      orderCalls tr = [] /\
      Forall2 (createdFor acc (Order_ExpiresAt o)) ids (map fst azs).
Proof.
  induction ids as [|identifier ids IH];
    intros o i w w' o' filled rest Hids Hi Hlen Hrun.
  - injection Hrun as <- <-. exists [], []. simpl.
    rewrite drop_0, !app_nil_r, <- Hids.
    split; [now destruct o|]. repeat split. constructor.
  - destruct rest as [|p rest]; [simpl in Hlen; lia|].
    simpl in Hrun. unfold bind at 1, orReturn at 1 in Hrun.
    fold (pendingAuthorization acc (Order_ExpiresAt o) identifier) in Hrun.
    destruct (newAuthorization ctx _ w) as [w1 [az|err]] eqn:Haz;
      [|discriminate].
    apply newAuthorization_ok in Haz
      as (tok & cids & id & Hcids & _ & -> & Hcalls1).
    apply IH with (filled := filled ++ [id]) (rest := rest) in Hrun.
    + destruct Hrun as (azs & tr & -> & Hcalls & Hauth & Hord & Hall).
      eexists ((_, id) :: azs), _. split; [|split; [|split; [|split]]].
      * unfold Order_with_AuthorizationIDs. simpl. f_equal.
        now rewrite <- app_assoc.
      * rewrite Hcalls, Hcalls1, <- app_assoc. reflexivity.
      * rewrite !authorizationCalls_app, authorizationCalls_createdChallenge.
        simpl. now rewrite Hauth.
      * rewrite !orderCalls_app, orderCalls_createdChallenge. simpl.
        exact Hord.
      * simpl. constructor; [|exact Hall]. exists tok, cids.
        split; [exact Hcids|reflexivity].
    + simpl. rewrite Hids, insert_app_r_alt by lia.
      replace (i - List.length filled)%nat with 0%nat by lia.
      simpl. now rewrite <- app_assoc.
    + rewrite length_app. simpl. lia.
    + simpl in Hlen. lia.
Qed.

Lemma newAuthorization_failed_orderCalls (ctx : Ctx) (az : Authorization)
    (w w' : W) (e : Error) :
  newAuthorization ctx az w = (w', Err e) ->
  exists tr, calls w' = calls w ++ tr /\ orderCalls tr = [].
Proof.
  intros Hrun.
  destruct (newAuthorization_failed ctx az w w' e Hrun)
    as [(err & _ & _ & Hcalls)
       |[(tok & chs & ch & err & _ & Hcalls)
        |(tok & chs & az1 & err & _ & Hcalls)]];
    eexists; (split; [exact Hcalls|]);
    rewrite ?orderCalls_app, ?orderCalls_createdChallenge; reflexivity.
Qed.

(** A failed fan-out stopped at the first authorization that could not
    be created; it has not called [db.CreateOrder]. *)
Lemma NewOrder_loop_failed (ctx : Ctx) (acc : Account) (ids : list Identifier) :
  forall (o : Order) (i : nat) (w w' : W) (resp : Response),
    NewOrder_loop ctx acc o i ids w = (w', Err resp) ->
    exists (tr : list Call) (e : Error) (err : goerror),
      resp = RenderError e /\
      (e = WrapErrorISE err "error generating random alphanumeric ID" \/
       e = WrapErrorISE err "error creating challenge" \/
       e = WrapErrorISE err "error creating authorization") /\
      calls w' = calls w ++ tr /\
      orderCalls tr = [].
Proof.
  induction ids as [|identifier ids IH]; intros o i w w' resp Hrun;
    [discriminate|].
  simpl in Hrun. unfold bind at 1, orReturn at 1 in Hrun.
  destruct (newAuthorization ctx _ w) as [w1 [az|e]] eqn:Haz.
  - apply newAuthorization_ok in Haz
      as (tok & cids & id & _ & _ & _ & Hcalls1).
    apply IH in Hrun as (tr & e & err & -> & He & Hcalls & Hord).
    eexists _, e, err. split; [reflexivity|]. split; [exact He|].
    split; [rewrite Hcalls, Hcalls1, <- app_assoc; reflexivity|].
    rewrite !orderCalls_app, orderCalls_createdChallenge. simpl. exact Hord.
  - injection Hrun as <- <-.
    destruct (newAuthorization_failed_orderCalls ctx _ w w1 e Haz)
      as (tr & Hcalls & Hord).
    destruct (newAuthorization_failed ctx _ w w1 e Haz)
      as [(err & -> & _)|[(? & ? & ? & err & -> & _)|(? & ? & ? & err & -> & _)]];
      exists tr; eexists _, err; (split; [reflexivity|]);
      (split; [|split; [exact Hcalls|exact Hord]]); auto.
Qed.

(** [NewOrder] on a request that passed validation: the fan-out, then
    the creation of the order. *)
Lemma NewOrder_run (r : Req) (w : W) (acc : Account) (prov : Provisioner)
    (payload : payloadInfo) (nor : NewOrderRequest) :
  accountFromContext (Request_Context r) = Ok acc ->
  provisionerFromContext (Request_Context r) = Ok prov ->
  payloadFromContext (Request_Context r) = Ok payload ->
  json_Unmarshal_NewOrderRequest (payloadInfo_value payload) = Ok nor ->
  NewOrderRequest_Validate nor = None ->
  forall (w1 : W) (res1 : res Response Order),
    NewOrder_loop (Request_Context r) acc (pendingOrder acc prov nor clock_Now) 0
      (NewOrderRequest_Identifiers nor) w = (w1, res1) ->
    match res1 with
    | Err resp => NewOrder r w = (w1, resp)
    | Ok o1 =>
        forall L : list string,
          o1 = Order_with_AuthorizationIDs (pendingOrder acc prov nor clock_Now) L ->
          let stored := orderFor acc prov nor clock_Now L in
          NewOrder r w =
            match db_CreateOrder (store w1) stored with
            | (s2, Ok id) =>
                let body := linker_LinkOrder (Request_Context r)
                              (Order_with_ID stored id) in
                (mkWorld s2 (entropy w1)
                   (calls w1 ++ [CallCreateOrder stored (Ok id)]),
                 RenderJSON StatusCreated
                   (linker_GetLink (Request_Context r) OrderLinkType
                      (Order_ID body)) body)
            | (s2, Err err) =>
                (mkWorld s2 (entropy w1)
                   (calls w1 ++ [CallCreateOrder stored (Err err)]),
                 RenderError (WrapErrorISE err "error creating order"))
            end
    end.
Proof.
  intros Hacc Hprov Hpay Hjson Hval w1 res1 Hloop.
  unfold pendingOrder in Hloop.
  assert (Hstart :
    NewOrder r w =
      respond
        (let* o := NewOrder_loop (Request_Context r) acc
                     (pendingOrder acc prov nor clock_Now) 0
                     (NewOrderRequest_Identifiers nor) in
         let o := if Time_IsZero (Order_NotBefore o)
                  then Order_with_NotBefore o clock_Now else o in
         let o := if Time_IsZero (Order_NotAfter o)
                  then Order_with_NotAfter o
                         (Time_Add (Order_NotBefore o)
                            (Provisioner_DefaultTLSCertDuration prov))
                  else o in
         let o := if Time_IsZero (NewOrderRequest_NotBefore nor)
                  then Order_with_NotBefore o
                         (Time_Add (Order_NotBefore o) (- defaultOrderBackdate))
                  else o in
         let* id := orReturn (call_CreateOrder o)
                      (fun err => RenderError
                                    (WrapErrorISE err "error creating order")) in
         let o := Order_with_ID o id in
         let o := linker_LinkOrder (Request_Context r) o in
         ret (RenderJSON StatusCreated
                (linker_GetLink (Request_Context r) OrderLinkType (Order_ID o))
                o)) w).
  { unfold NewOrder, respond.
    unfold bind at 1, orReturn at 1, pure at 1. rewrite Hacc.
    unfold bind at 1, orReturn at 1, pure at 1. rewrite Hprov.
    unfold bind at 1, orReturn at 1, pure at 1. rewrite Hpay.
    unfold bind at 1, orReturn at 1, pure at 1. rewrite Hjson.
    unfold bind at 1, check. rewrite Hval. reflexivity. }
  destruct res1 as [o1|resp].
  - intros L -> stored. rewrite Hstart. unfold respond, bind at 1.
    unfold pendingOrder. rewrite Hloop. cbv zeta.
    unfold bind, orReturn, call_CreateOrder, ret.
    match goal with
    | |- context [db_CreateOrder ?s0 ?o2] =>
        assert (Hstored : o2 = stored)
    end.
    { unfold stored, orderFor, Order_with_NotBefore, Order_with_NotAfter,
        Order_with_AuthorizationIDs.
      destruct (Time_IsZero (NewOrderRequest_NotBefore nor)) eqn:Hnb;
        destruct (Time_IsZero (NewOrderRequest_NotAfter nor)) eqn:Hna;
        cbn; rewrite ?Hnb, ?Hna; cbn; rewrite ?Hnb, ?Hna; reflexivity. }
    rewrite Hstored.
    destruct (db_CreateOrder (store w1) stored) as [s2 [id|err]]; reflexivity.
  - rewrite Hstart. unfold respond, bind at 1.
    unfold pendingOrder. rewrite Hloop. reflexivity.
Qed.

Lemma NewOrder_rejected (r : Req) (w : W) (acc : Account) (prov : Provisioner)
    (payload : payloadInfo) (nor : NewOrderRequest) (e : Error) :
  accountFromContext (Request_Context r) = Ok acc ->
  provisionerFromContext (Request_Context r) = Ok prov ->
  payloadFromContext (Request_Context r) = Ok payload ->
  json_Unmarshal_NewOrderRequest (payloadInfo_value payload) = Ok nor ->
  NewOrderRequest_Validate nor = Some e ->
  NewOrder r w = (w, RenderError e).
Proof.
  intros Hacc Hprov Hpay Hjson Hval.
  unfold NewOrder, respond.
  unfold bind at 1, orReturn at 1, pure at 1. rewrite Hacc.
  unfold bind at 1, orReturn at 1, pure at 1. rewrite Hprov.
  unfold bind at 1, orReturn at 1, pure at 1. rewrite Hpay.
  unfold bind at 1, orReturn at 1, pure at 1. rewrite Hjson.
  unfold bind at 1, check. rewrite Hval. reflexivity.
Qed.

(** The outcomes of [NewOrder] on a request that passed validation. *)
Lemma NewOrder_outcomes (r : Req) (w : W) (acc : Account) (prov : Provisioner)
    (payload : payloadInfo) (nor : NewOrderRequest) :
  accountFromContext (Request_Context r) = Ok acc ->
  provisionerFromContext (Request_Context r) = Ok prov ->
  payloadFromContext (Request_Context r) = Ok payload ->
  json_Unmarshal_NewOrderRequest (payloadInfo_value payload) = Ok nor ->
  NewOrderRequest_Validate nor = None ->
  exists tr : list Call,
    calls (fst (NewOrder r w)) = calls w ++ tr /\
    ((exists e err,
        snd (NewOrder r w) = RenderError e /\
        (e = WrapErrorISE err "error generating random alphanumeric ID" \/
         e = WrapErrorISE err "error creating challenge" \/
         e = WrapErrorISE err "error creating authorization") /\
        orderCalls tr = []) \/
     (exists azs tr1 r1,
        let stored := orderFor acc prov nor clock_Now (map snd azs) in
        tr = tr1 ++ [CallCreateOrder stored r1] /\
        orderCalls tr1 = [] /\
        authorizationCalls tr1 = map (fun p => (fst p, Ok (snd p))) azs /\
        Forall2 (createdFor acc (Time_Add clock_Now defaultOrderExpiry))
          (NewOrderRequest_Identifiers nor) (map fst azs) /\
        snd (NewOrder r w) =
          match r1 with
          | Ok id =>
              let body := linker_LinkOrder (Request_Context r)
                            (Order_with_ID stored id) in
              RenderJSON StatusCreated
                (linker_GetLink (Request_Context r) OrderLinkType (Order_ID body))
                body
          | Err err => RenderError (WrapErrorISE err "error creating order")
          end)).
Proof.
  intros Hacc Hprov Hpay Hjson Hval.
  destruct (NewOrder_loop (Request_Context r) acc
              (pendingOrder acc prov nor clock_Now) 0
              (NewOrderRequest_Identifiers nor) w) as [w1 res1] eqn:Hloop.
  pose proof (NewOrder_run r w acc prov payload nor Hacc Hprov Hpay Hjson Hval
                w1 res1 Hloop) as Hrun.
  destruct res1 as [o1|resp].
  - apply NewOrder_loop_created
      with (filled := [])
           (rest := replicate (List.length (NewOrderRequest_Identifiers nor)) "")
      in Hloop; [|reflexivity|reflexivity|now rewrite length_replicate].
    destruct Hloop as (azs & tr1 & Ho1 & Hcalls & Hauth & Hord & Hall).
    rewrite drop_replicate, Nat.sub_diag, app_nil_r in Ho1. simpl app in Ho1.
    specialize (Hrun (map snd azs) Ho1). cbv zeta in Hrun. rewrite Hrun.
    destruct (db_CreateOrder (store w1) _) as [s2 r1].
    eexists (tr1 ++ [CallCreateOrder _ r1]). split.
    + destruct r1; cbn [fst calls]; now rewrite Hcalls, <- app_assoc.
    + right. exists azs, tr1, r1. cbv zeta. split; [reflexivity|].
      split; [exact Hord|]. split; [exact Hauth|]. split; [exact Hall|].
      destruct r1; reflexivity.
  - rewrite Hrun.
    apply NewOrder_loop_failed in Hloop as (tr & e & err & -> & He & Hcalls & Hord).
    exists tr. split; [exact Hcalls|]. left. exists e, err. repeat split; assumption.
Qed.

(** X7: for a request that passed validation, an error response means
    that no order has been stored.  The error is the wrapped failure of
    the random source, of a challenge or authorization creation, in which
    case [db.CreateOrder] has not been called, or of the one
    [db.CreateOrder] call, made last.  A 201 response comes with exactly
    one [db.CreateOrder] call, successful and last, for an order without
    ID that belongs to the authenticated account and provisioner. *)
Theorem NewOrder_order_creation (r : Req) (w : W) (acc : Account)
    (prov : Provisioner) (payload : payloadInfo) (nor : NewOrderRequest) :
  accountFromContext (Request_Context r) = Ok acc ->
  provisionerFromContext (Request_Context r) = Ok prov ->
  payloadFromContext (Request_Context r) = Ok payload ->
  json_Unmarshal_NewOrderRequest (payloadInfo_value payload) = Ok nor ->
  NewOrderRequest_Validate nor = None ->
  let created := orderCalls (drop (List.length (calls w)) (calls (fst (NewOrder r w)))) in
  (forall e, snd (NewOrder r w) = RenderError e ->
     exists err,
       ((e = WrapErrorISE err "error generating random alphanumeric ID" \/
         e = WrapErrorISE err "error creating challenge" \/
         e = WrapErrorISE err "error creating authorization") /\
        created = []) \/
       (e = WrapErrorISE err "error creating order" /\
        exists stored, created = [(stored, Err err)] /\
          last (calls (fst (NewOrder r w))) = Some (CallCreateOrder stored (Err err)))) /\
  (forall status location body,
     snd (NewOrder r w) = RenderJSON status location body ->
     exists stored id,
       created = [(stored, Ok id)] /\
       last (calls (fst (NewOrder r w))) = Some (CallCreateOrder stored (Ok id)) /\
       Order_ID stored = "" /\
       Order_AccountID stored = Account_ID acc /\
       Order_ProvisionerID stored = Provisioner_GetID prov /\
       status = StatusCreated /\
       body = linker_LinkOrder (Request_Context r) (Order_with_ID stored id) /\
       location = linker_GetLink (Request_Context r) OrderLinkType (Order_ID body)).
Proof.
  intros Hacc Hprov Hpay Hjson Hval created. subst created.
  destruct (NewOrder_outcomes r w acc prov payload nor Hacc Hprov Hpay Hjson Hval)
    as (tr & Hcalls & [(e0 & err & Hresp & He & Hord)
                      |(azs & tr1 & r1 & Htr & Hord & _ & _ & Hresp)]);
    rewrite Hcalls, drop_app_length.
  - split.
    + intros e He'. rewrite Hresp in He'. injection He' as <-.
      exists err. left. split; assumption.
    + intros status location body Hjson'. rewrite Hresp in Hjson'. discriminate.
  - cbv zeta in Htr, Hresp. rewrite Htr, orderCalls_app, Hord. simpl.
    rewrite app_assoc, last_snoc. rewrite Hresp. split.
    + intros e He'. destruct r1 as [id|err]; [discriminate|].
      injection He' as <-. exists err. right. split; [reflexivity|].
      eexists. split; reflexivity.
    + intros status location body Hjson'. destruct r1 as [id|err]; [|discriminate].
      cbv zeta in Hjson'. injection Hjson' as <- <- <-.
      eexists _, id. repeat split.
Qed.

Lemma challengeTypes_supported (az : Authorization) :
  Identifier_Type (Authorization_Identifier az) = DNS \/
  Identifier_Type (Authorization_Identifier az) = IP ->
  challengeTypes az <> [].
Proof.
  unfold challengeTypes. intros [-> | ->]; simpl; [|discriminate].
  destruct (Authorization_Wildcard az); discriminate.
Qed.

Lemma createdFor_challenges (acc : Account) (expires : Time)
    (identifier : Identifier) (az : Authorization) :
  createdFor acc expires identifier az ->
  Identifier_Type identifier = DNS \/ Identifier_Type identifier = IP ->
  authorizes acc expires identifier az /\
  exists chs : list Challenge,
    Authorization_Challenges az = map Some chs /\
    chs <> [] /\
    map Challenge_Type chs = challengeTypes az /\
    Forall (fun ch =>
              Challenge_Token ch = Authorization_Token az /\
              Challenge_Value ch = TrimPrefix (Identifier_Value identifier) "*.")
      chs.
Proof.
  intros (tok & ids & Hids & ->) Htyp.
  pose proof (authorizes_stripWildcard acc expires identifier tok
                (map Some
                   (zip_with
                      (newChallenge
                         (Authorization_with_Token
                            (stripWildcard
                               (pendingAuthorization acc expires identifier)) tok))
                      (challengeTypes
                         (stripWildcard
                            (pendingAuthorization acc expires identifier)))
                      ids))) as Hauth.
  split; [exact Hauth|].
  destruct Hauth as (_ & _ & _ & Hty & Hval & _).
  eexists. split; [reflexivity|]. split; [|split].
  - intros Hnil. apply (f_equal (map Challenge_Type)) in Hnil.
    rewrite Challenge_Type_newChallenge in Hnil by exact Hids.
    revert Hnil. apply challengeTypes_supported.
    cbn [Authorization_Identifier Authorization_with_Challenges
         Authorization_with_Token] in Hty.
    now rewrite Hty.
  - rewrite challengeTypes_stripWildcard_fields.
    now apply Challenge_Type_newChallenge.
  - eapply Forall_impl; [apply newChallenge_fields|].
    intros ch (Hv & _ & _ & Ht). split; [exact Ht|].
    rewrite Hv. exact Hval.
Qed.

(** X8: in an order created by [NewOrder], every authorization has at
    least one challenge: its challenge list has no nil entry and has
    exactly the types that [challengeTypes] selects for it, in that
    order, and every challenge carries the token of its authorization
    and the identifier value without the wildcard marker. *)
Theorem NewOrder_challenges (r : Req) (w w' : W) (acc : Account)
    (prov : Provisioner) (payload : payloadInfo) (nor : NewOrderRequest)
    (status : nat) (location : string) (body : Order) :
  accountFromContext (Request_Context r) = Ok acc ->
  provisionerFromContext (Request_Context r) = Ok prov ->
  payloadFromContext (Request_Context r) = Ok payload ->
  json_Unmarshal_NewOrderRequest (payloadInfo_value payload) = Ok nor ->
  NewOrder r w = (w', RenderJSON status location body) ->
  exists azs : list (Authorization * string),
    authorizationCalls (drop (List.length (calls w)) (calls w'))
      = map (fun p => (fst p, Ok (snd p))) azs /\
    Forall2 (fun identifier az =>
               exists chs : list Challenge,
                 Authorization_Challenges az = map Some chs /\
                 chs <> [] /\
                 map Challenge_Type chs = challengeTypes az /\
                 Forall (fun ch =>
                           Challenge_Token ch = Authorization_Token az /\
                           Challenge_Value ch
                             = TrimPrefix (Identifier_Value identifier) "*.")
                   chs)
      (NewOrderRequest_Identifiers nor) (map fst azs).
Proof.
  intros Hacc Hprov Hpay Hjson Hrun.
  destruct (NewOrderRequest_Validate nor) as [e|] eqn:Hval.
  { rewrite (NewOrder_rejected r w acc prov payload nor e
               Hacc Hprov Hpay Hjson Hval) in Hrun. discriminate. }
  pose proof (Validate_accepted nor Hval) as Hacceptable.
  destruct (NewOrder_outcomes r w acc prov payload nor Hacc Hprov Hpay Hjson Hval)
    as (tr & Hcalls & [(e0 & err & Hresp & _)
                      |(azs & tr1 & r1 & Htr & _ & Hauth & Hall & _)]);
    rewrite Hrun in *; [discriminate|].
  cbn [fst] in Hcalls. cbv zeta in Htr.
  exists azs. split.
  - rewrite Hcalls, drop_app_length, Htr, authorizationCalls_app, Hauth.
    simpl. now rewrite app_nil_r.
  - revert Hall Hacceptable. generalize (map fst azs) as l.
    induction (NewOrderRequest_Identifiers nor) as [|identifier ids IH];
      intros l Hall Hacceptable; inversion Hall as [|? az ? l' Hcr Hrest]; subst;
      constructor.
    + inversion Hacceptable as [|? ? Hid _]; subst.
      eapply createdFor_challenges; [exact Hcr|].
      destruct Hid as [Hd|[Hi _]]; [now left|now right].
    + apply IH; [exact Hrest|]. now inversion Hacceptable.
Qed.

(** X9: a notBefore given by the client is stored as given, without
    backdate, and a notAfter given by the client is stored as given;
    with a notBefore and no notAfter, notAfter is the given notBefore
    plus the provisioner's default duration; with a notAfter and no
    notBefore, notBefore is one minute before now.  The two are not
    compared with each other or with now. *)
Theorem NewOrder_explicit_window (r : Req) (w w' : W) (acc : Account)
    (prov : Provisioner) (payload : payloadInfo) (nor : NewOrderRequest)
    (status : nat) (location : string) (body : Order) :
  accountFromContext (Request_Context r) = Ok acc ->
  provisionerFromContext (Request_Context r) = Ok prov ->
  payloadFromContext (Request_Context r) = Ok payload ->
  json_Unmarshal_NewOrderRequest (payloadInfo_value payload) = Ok nor ->
  NewOrder r w = (w', RenderJSON status location body) ->
  exists (stored : Order) (id : string),
    last (calls w') = Some (CallCreateOrder stored (Ok id)) /\
    (NewOrderRequest_NotBefore nor <> 0 ->
     Order_NotBefore stored = NewOrderRequest_NotBefore nor) /\
    (NewOrderRequest_NotAfter nor <> 0 ->
     Order_NotAfter stored = NewOrderRequest_NotAfter nor) /\
    (NewOrderRequest_NotBefore nor <> 0 -> NewOrderRequest_NotAfter nor = 0 ->
     Order_NotAfter stored
       = NewOrderRequest_NotBefore nor + Provisioner_DefaultTLSCertDuration prov) /\
    (NewOrderRequest_NotBefore nor = 0 ->
     Order_NotBefore stored = clock_Now - 60 * 1000000000).
Proof.
  intros Hacc Hprov Hpay Hjson Hrun.
  destruct (NewOrder_ok r w w' acc prov payload nor status location body
              Hacc Hprov Hpay Hjson Hrun)
    as (azs & tr & id & _ & Hcalls & _ & _ & _ & _ & _).
  eexists _, id. split; [rewrite Hcalls, app_assoc; apply last_snoc|].
  cbn [orderFor Order_NotBefore Order_NotAfter].
  unfold Time_IsZero, Time_Add, defaultOrderBackdate, Minute, Second, Nanosecond.
  repeat split.
  - intros Hnb. apply Z.eqb_neq in Hnb. now rewrite Hnb.
  - intros Hna. apply Z.eqb_neq in Hna. now rewrite Hna.
  - intros Hnb ->. apply Z.eqb_neq in Hnb. now rewrite Hnb.
  - intros ->. simpl. lia.
Qed.

End OrderCreation.

Section Handlers.

Context {Req Ctx CertificateRequest Authority Store Entropy : Type}.
Context {RT : Runtime Req Ctx CertificateRequest Authority Store Entropy}.
Context {DB : Database Store}.

Abbreviation W := (World Store Entropy).

(** X10: when the request context holds no account, or an account but
    no provisioner, each of the three handlers renders the error of the
    lookup as it is and does nothing else: the world is unchanged. *)
Theorem handlers_without_identity (r : Req) (w : W) (err : Error) :
  accountFromContext (Request_Context r) = Err err \/
  (exists acc, accountFromContext (Request_Context r) = Ok acc /\
               provisionerFromContext (Request_Context r) = Err err) ->
  NewOrder r w = (w, RenderError err) /\
  GetOrder r w = (w, RenderError err) /\
  FinalizeOrder r w = (w, RenderError err).
Proof.
  intros [Hacc|(acc & Hacc & Hprov)];
    unfold NewOrder, GetOrder, FinalizeOrder, respond, bind, orReturn, pure;
    rewrite Hacc; [|rewrite Hprov]; repeat split.
Qed.

(** X11: [NewOrder] and [FinalizeOrder] render the error of the payload
    lookup as it is, and [NewOrder] renders a payload that does not
    unmarshal as a malformed-input error wrapping the decoder's error;
    in both cases the world is unchanged. *)
Theorem handlers_without_payload (r : Req) (w : W) (acc : Account)
    (prov : Provisioner) :
  accountFromContext (Request_Context r) = Ok acc ->
  provisionerFromContext (Request_Context r) = Ok prov ->
  (forall err, payloadFromContext (Request_Context r) = Err err ->
     NewOrder r w = (w, RenderError err) /\
     FinalizeOrder r w = (w, RenderError err)) /\
  (forall payload err,
     payloadFromContext (Request_Context r) = Ok payload ->
     json_Unmarshal_NewOrderRequest (payloadInfo_value payload) = Err err ->
     NewOrder r w
       = (w, RenderError
               (WrapError ErrorMalformedType err
                  "failed to unmarshal new-order request payload"))).
Proof.
  intros Hacc Hprov. split.
  - intros err Hpay.
    unfold NewOrder, FinalizeOrder, respond, bind, orReturn, pure.
    rewrite Hacc, Hprov, Hpay. split; reflexivity.
  - intros payload err Hpay Hjson.
    unfold NewOrder, respond, bind, orReturn, pure.
    rewrite Hacc, Hprov, Hpay. cbn. rewrite Hjson. reflexivity.
Qed.

Lemma GetOrder_proceeds (r : Req) (w : W) (acc : Account) (prov : Provisioner)
    (o : Order) :
  accountFromContext (Request_Context r) = Ok acc ->
  provisionerFromContext (Request_Context r) = Ok prov ->
  db_GetOrder (store w) (chi_URLParam r "ordID") = Ok o ->
  Account_ID acc = Order_AccountID o ->
  Provisioner_GetID prov = Order_ProvisionerID o ->
  let ctx := Request_Context r in
  let w' := fst (GetOrder r w) in
  calls w' = calls w ++ [CallGetOrder (chi_URLParam r "ordID"); CallUpdateStatus o] /\
  store w' = fst (Order_UpdateStatus ctx (store w) o) /\
  snd (GetOrder r w) =
    match snd (Order_UpdateStatus ctx (store w) o) with
    | Ok o' =>
        RenderJSON StatusOK
          (linker_GetLink ctx OrderLinkType (Order_ID (linker_LinkOrder ctx o')))
          (linker_LinkOrder ctx o')
    | Err err => RenderError (WrapErrorISE err "error updating order status")
    end.
Proof.
  intros Hacc Hprov Hget Ha Hp.
  unfold GetOrder, respond, bind, orReturn, pure, call_GetOrder, fail,
    call_UpdateStatus, ret.
  rewrite Hacc, Hprov. cbn. rewrite Hget.
  rewrite <- Ha, <- Hp, !String.eqb_refl. cbn.
  destruct (Order_UpdateStatus (Request_Context r) (store w) o) as [s' [o'|err]];
    cbn; rewrite <- app_assoc; repeat split.
Qed.

(** X12: for the owner, [GetOrder] reads the order and calls the status
    recomputation on it, once and in this order; it answers 200 with the
    order as recomputed and linked, with the link of its ID as location,
    and when the recomputation fails it renders the failure wrapped as
    "error updating order status", without a body. *)
Theorem GetOrder_owner (r : Req) (w : W) (acc : Account) (prov : Provisioner)
    (o : Order) :
  accountFromContext (Request_Context r) = Ok acc ->
  provisionerFromContext (Request_Context r) = Ok prov ->
  db_GetOrder (store w) (chi_URLParam r "ordID") = Ok o ->
  Account_ID acc = Order_AccountID o ->
  Provisioner_GetID prov = Order_ProvisionerID o ->
  let ctx := Request_Context r in
  let w' := fst (GetOrder r w) in
  calls w' = calls w ++ [CallGetOrder (chi_URLParam r "ordID"); CallUpdateStatus o] /\
  store w' = fst (Order_UpdateStatus ctx (store w) o) /\
  snd (GetOrder r w) =
    match snd (Order_UpdateStatus ctx (store w) o) with
    | Ok o' =>
        RenderJSON StatusOK
          (linker_GetLink ctx OrderLinkType (Order_ID (linker_LinkOrder ctx o')))
          (linker_LinkOrder ctx o')
    | Err err => RenderError (WrapErrorISE err "error updating order status")
    end.
Proof. exact (GetOrder_proceeds r w acc prov o). Qed.

(** X13: for the owner and a CSR that passes validation,
    [FinalizeOrder] reads the order and calls [Finalize] on it, once and
    in this order, with the request parsed from the decoded CSR, the
    authority of the context and the authenticated provisioner; it
    answers 200 with the finalized order as linked, and when [Finalize]
    fails it renders the failure wrapped as "error finalizing order",
    without a body. *)
Theorem FinalizeOrder_owner (r : Req) (w : W) (acc : Account)
    (prov : Provisioner) (payload : payloadInfo) (csr : string) (b : bytes)
    (c : CertificateRequest) (o : Order) :
  accountFromContext (Request_Context r) = Ok acc ->
  provisionerFromContext (Request_Context r) = Ok prov ->
  payloadFromContext (Request_Context r) = Ok payload ->
  json_Unmarshal_FinalizeRequest (payloadInfo_value payload) = Ok csr ->
  base64_RawURLEncoding_DecodeString csr = Ok b ->
  x509_ParseCertificateRequest b = Ok c ->
  CertificateRequest_CheckSignature c = None ->
  db_GetOrder (store w) (chi_URLParam r "ordID") = Ok o ->
  Account_ID acc = Order_AccountID o ->
  Provisioner_GetID prov = Order_ProvisionerID o ->
  let ctx := Request_Context r in
  let w' := fst (FinalizeOrder r w) in
  let finalized := Order_Finalize ctx (store w) o (Some c) (mustAuthority ctx) prov in
  calls w' = calls w ++ [CallGetOrder (chi_URLParam r "ordID"); CallFinalize o] /\
  store w' = fst finalized /\
  snd (FinalizeOrder r w) =
    match snd finalized with
    | Ok o' =>
        RenderJSON StatusOK
          (linker_GetLink ctx OrderLinkType (Order_ID (linker_LinkOrder ctx o')))
          (linker_LinkOrder ctx o')
    | Err err => RenderError (WrapErrorISE err "error finalizing order")
    end.
Proof.
  intros Hacc Hprov Hpay Hjson Hb Hc Hsig Hget Ha Hp.
  unfold FinalizeOrder, respond, bind, orReturn, pure, call_GetOrder, fail,
    call_Finalize, ret, FinalizeRequest_Validate.
  rewrite Hacc, Hprov, Hpay. cbn. rewrite Hjson. cbn.
  rewrite Hb, Hc, Hsig. cbn. rewrite Hget.
  rewrite <- Ha, <- Hp, !String.eqb_refl. cbn.
  destruct (Order_Finalize (Request_Context r) (store w) o (Some c)
              (mustAuthority (Request_Context r)) prov) as [s' [o'|err]];
    cbn; rewrite <- app_assoc; repeat split.
Qed.

(** X14: when the storage does not return the order, [GetOrder] and
    [FinalizeOrder] (given a CSR that passes validation) render the
    storage's error wrapped as "error retrieving order"; the read is
    their only collaborator call and the storage is unchanged.  The
    ownership of the order plays no part. *)
Theorem handlers_order_not_found (r : Req) (w : W) (acc : Account)
    (prov : Provisioner) (err : goerror) :
  accountFromContext (Request_Context r) = Ok acc ->
  provisionerFromContext (Request_Context r) = Ok prov ->
  db_GetOrder (store w) (chi_URLParam r "ordID") = Err err ->
  let w' := mkWorld (store w) (entropy w)
              (calls w ++ [CallGetOrder (chi_URLParam r "ordID")]) in
  let resp := RenderError (WrapErrorISE err "error retrieving order") in
  GetOrder r w = (w', resp) /\
  (forall payload csr,
     payloadFromContext (Request_Context r) = Ok payload ->
     json_Unmarshal_FinalizeRequest (payloadInfo_value payload) = Ok csr ->
     snd (FinalizeRequest_Validate (mkFinalizeRequest csr None)) = None ->
     FinalizeOrder r w = (w', resp)).
Proof.
  intros Hacc Hprov Hget. split.
  - unfold GetOrder, respond, bind, orReturn, pure, call_GetOrder.
    rewrite Hacc, Hprov. cbn. rewrite Hget. reflexivity.
  - intros payload csr Hpay Hjson Hval.
    unfold FinalizeOrder, respond, bind, orReturn, pure, call_GetOrder.
    rewrite Hacc, Hprov, Hpay. cbn. rewrite Hjson.
    destruct (FinalizeRequest_Validate _) as [fr e]. simpl in Hval. subst e.
    cbn. rewrite Hget. reflexivity.
Qed.

(** X15: when the ownership check of [FinalizeOrder] fails, the handler
    has made one collaborator call, the read of the order: [Finalize] is
    not called, so no certificate is requested from the authority, and
    the storage is as before. *)
Theorem FinalizeOrder_guard_before_Finalize (r : Req) (w : W) (acc : Account)
    (prov : Provisioner) (payload : payloadInfo) (csr : string) (o : Order) :
  accountFromContext (Request_Context r) = Ok acc ->
  provisionerFromContext (Request_Context r) = Ok prov ->
  payloadFromContext (Request_Context r) = Ok payload ->
  json_Unmarshal_FinalizeRequest (payloadInfo_value payload) = Ok csr ->
  snd (FinalizeRequest_Validate (mkFinalizeRequest csr None)) = None ->
  db_GetOrder (store w) (chi_URLParam r "ordID") = Ok o ->
  notOwner acc prov o ->
  let w' := fst (FinalizeOrder r w) in
  store w' = store w /\
  calls w' = calls w ++ [CallGetOrder (chi_URLParam r "ordID")] /\
  (forall o', ~ In (CallFinalize o') (drop (List.length (calls w)) (calls w'))).
Proof.
  intros Hacc Hprov Hpay Hjson Hval Hget Hno.
  destruct (FinalizeOrder_notOwner r w acc prov payload csr o
              Hacc Hprov Hpay Hjson Hval Hget Hno) as (e & -> & _).
  cbn. repeat split.
  intros o'. rewrite drop_app_length. simpl. intros [H|[]]. discriminate.
Qed.

(** X16: the ownership guard checks the account first: when the account
    differs, [GetOrder] renders an unauthorized error that names the
    account and the order, whatever the provisioner; when only the
    provisioner differs, the error names the provisioner and the
    order. *)
Theorem GetOrder_guard_message (r : Req) (w : W) (acc : Account)
    (prov : Provisioner) (o : Order) :
  accountFromContext (Request_Context r) = Ok acc ->
  provisionerFromContext (Request_Context r) = Ok prov ->
  db_GetOrder (store w) (chi_URLParam r "ordID") = Ok o ->
  (Account_ID acc <> Order_AccountID o ->
   snd (GetOrder r w)
     = RenderError
         (NewError ErrorUnauthorizedType
            ("account '" +:+ Account_ID acc +:+ "' does not own order '"
             +:+ Order_ID o +:+ "'"))) /\
  (Account_ID acc = Order_AccountID o ->
   Provisioner_GetID prov <> Order_ProvisionerID o ->
   snd (GetOrder r w)
     = RenderError
         (NewError ErrorUnauthorizedType
            ("provisioner '" +:+ Provisioner_GetID prov
             +:+ "' does not own order '" +:+ Order_ID o +:+ "'"))).
Proof.
  intros Hacc Hprov Hget.
  unfold GetOrder, respond, bind, orReturn, pure, call_GetOrder, fail.
  rewrite Hacc, Hprov. cbn. rewrite Hget. split.
  - intros Ha. apply String.eqb_neq in Ha. rewrite Ha. reflexivity.
  - intros Ha Hp. apply String.eqb_neq in Hp.
    rewrite Ha, String.eqb_refl, Hp. reflexivity.
Qed.

(** X17: an order created by [NewOrder] can be read by its creator and
    by nobody else.  When the storage returns the order under the ID it
    gave it, a [GetOrder] for this ID passes the ownership guard and
    reaches the status recomputation if it comes from the account and
    the provisioner of the creating request, and is answered
    unauthorized if the account or the provisioner differs. *)
Theorem NewOrder_then_GetOrder (r r2 : Req) (w w1 : W) (acc acc2 : Account)
    (prov prov2 : Provisioner) (payload : payloadInfo) (nor : NewOrderRequest)
    (status : nat) (location : string) (body stored : Order) (id : string) :
  accountFromContext (Request_Context r) = Ok acc ->
  provisionerFromContext (Request_Context r) = Ok prov ->
  payloadFromContext (Request_Context r) = Ok payload ->
  json_Unmarshal_NewOrderRequest (payloadInfo_value payload) = Ok nor ->
  NewOrder r w = (w1, RenderJSON status location body) ->
  last (calls w1) = Some (CallCreateOrder stored (Ok id)) ->
  db_GetOrder (store w1) id = Ok (Order_with_ID stored id) ->
  accountFromContext (Request_Context r2) = Ok acc2 ->
  provisionerFromContext (Request_Context r2) = Ok prov2 ->
  chi_URLParam r2 "ordID" = id ->
  (Account_ID acc2 = Account_ID acc ->
   Provisioner_GetID prov2 = Provisioner_GetID prov ->
   calls (fst (GetOrder r2 w1))
     = calls w1 ++ [CallGetOrder id; CallUpdateStatus (Order_with_ID stored id)]) /\
  (Account_ID acc2 <> Account_ID acc \/
   Provisioner_GetID prov2 <> Provisioner_GetID prov ->
   exists e, GetOrder r2 w1
               = (mkWorld (store w1) (entropy w1) (calls w1 ++ [CallGetOrder id]),
                  RenderError e) /\
             Error_Type e = ErrorUnauthorizedType).
Proof.
  intros Hacc Hprov Hpay Hjson Hrun Hlast Hget Hacc2 Hprov2 Hid.
  destruct (NewOrder_ok r w w1 acc prov payload nor status location body
              Hacc Hprov Hpay Hjson Hrun)
    as (azs & tr & id0 & _ & Hcalls & _ & _ & _ & _ & _).
  rewrite Hcalls, app_assoc, last_snoc in Hlast.
  injection Hlast as <- <-. rewrite <- Hid in Hget |- *. split.
  - intros Ha Hp.
    destruct (GetOrder_proceeds r2 w1 acc2 prov2 _ Hacc2 Hprov2 Hget Ha Hp)
      as (Hc & _). exact Hc.
  - intros Hno.
    apply (GetOrder_notOwner r2 w1 acc2 prov2 _ Hacc2 Hprov2 Hget). exact Hno.
Qed.

End Handlers.

(** * The handlers on concrete requests *)

(** ** The scripted runtime meets the contract of the random source *)

Lemma alphabet_alphanumeric (i : nat) :
  (i < 62)%nat -> isAlphanumericChar (nth i alphabet "0"%char) = true.
Proof.
  intros Hi.
  assert (Hall : forallb isAlphanumericChar alphabet = true) by reflexivity.
  rewrite forallb_forall in Hall. apply Hall, nth_In. exact Hi.
Qed.

Lemma alnumString_spec (n : nat) :
  forall seed : nat,
    String.length (alnumString seed n) = n /\
    isAlphanumeric (alnumString seed n) = true.
Proof.
  induction n as [|n IH]; intros seed; [split; reflexivity|].
  destruct (IH (S seed)) as [Hlen Halnum].
  cbn [alnumString String.length isAlphanumeric].
  rewrite Hlen, Halnum, alphabet_alphanumeric.
  - split; reflexivity.
  - apply Nat.mod_upper_bound. discriminate.
Qed.

Lemma scripted_Alphanumeric_spec (sc : Script) :
  forall e n e' s,
    randutil_Alphanumeric (Runtime := scripted sc) e n = (e', Ok s) ->
    String.length s = n /\ isAlphanumeric s = true.
Proof. intros e n e' s [= _ <-]. apply alnumString_spec. Qed.

Lemma scripted_infallibleRandom (sc : Script) :
  infallibleRandom (RT := scripted sc).
Proof. intros e n. reflexivity. Qed.

Lemma memDatabase_infallibleCreate : infallibleCreate (DB := memDatabase).
Proof. repeat split. Qed.

(** ** Runs *)

(** The challenge selector on an IP identifier, a DNS name, a wildcard
    DNS name and an identifier of another type. *)
Lemma challengeTypes_spec_witness :
  challengeTypes
    (pendingAuthorization alice 0
       {| Identifier_Type := IP; Identifier_Value := "192.0.2.1" |})
    = [HTTP01; TLSALPN01] /\
  challengeTypes
    (pendingAuthorization alice 0
       {| Identifier_Type := DNS; Identifier_Value := "example.com" |})
    = [DNS01; HTTP01; TLSALPN01] /\
  challengeTypes
    (Authorization_with_Wildcard
       (pendingAuthorization alice 0
          {| Identifier_Type := DNS; Identifier_Value := "example.com" |}) true)
    = [DNS01] /\
  challengeTypes
    (pendingAuthorization alice 0
       {| Identifier_Type := "email"; Identifier_Value := "a@example.com" |})
    = [].
Proof.
  split; [|split; [|split]].
  - destruct (challengeTypes_spec
                (pendingAuthorization alice 0
                   {| Identifier_Type := IP; Identifier_Value := "192.0.2.1" |}))
      as (H & _).
    apply H. reflexivity.
  - destruct (challengeTypes_spec
                (pendingAuthorization alice 0
                   {| Identifier_Type := DNS; Identifier_Value := "example.com" |}))
      as (_ & H & _).
    apply H; reflexivity.
  - destruct (challengeTypes_spec
                (Authorization_with_Wildcard
                   (pendingAuthorization alice 0
                      {| Identifier_Type := DNS; Identifier_Value := "example.com" |})
                   true))
      as (_ & _ & H & _).
    apply H; reflexivity.
  - destruct (challengeTypes_spec
                (pendingAuthorization alice 0
                   {| Identifier_Type := "email"; Identifier_Value := "a@example.com" |}))
      as (_ & _ & _ & H & _).
    apply H; vm_compute; discriminate.
Defined.

(** [bob] asks for, and tries to finalize, the order of [alice]. *)
Lemma ownership_guard_unauthorized_witness :
  (exists e,
     snd (GetOrder (RT := scripted (finalizeScript None)) (DB := memDatabase)
            tt aliceWorld) = RenderError e /\
     Error_Type e = ErrorUnauthorizedType) /\
  (exists e,
     snd (FinalizeOrder (RT := scripted (finalizeScript None)) (DB := memDatabase)
            tt aliceWorld) = RenderError e /\
     Error_Type e = ErrorUnauthorizedType).
Proof.
  destruct (ownership_guard_unauthorized
              (RT := scripted (finalizeScript None)) (DB := memDatabase)
              tt aliceWorld bob acmeProvisioner aliceOrder)
    as [Hget Hfin];
    [reflexivity|reflexivity|reflexivity|left; vm_compute; discriminate|].
  split; [exact Hget|].
  apply (Hfin (mkPayloadInfo []) "MIIB"); reflexivity.
Defined.

Lemma GetOrder_guard_before_UpdateStatus_witness :
  calls (fst (GetOrder (RT := scripted (finalizeScript None)) (DB := memDatabase)
                tt aliceWorld))
    = [CallGetOrder "ord0"] /\
  store (fst (GetOrder (RT := scripted (finalizeScript None)) (DB := memDatabase)
                tt aliceWorld))
    = store aliceWorld.
Proof.
  destruct (GetOrder_guard_before_UpdateStatus
              (RT := scripted (finalizeScript None)) (DB := memDatabase)
              tt aliceWorld bob acmeProvisioner aliceOrder)
    as (Hstore & Hcalls & _ & _);
    [reflexivity|reflexivity|reflexivity|left; vm_compute; discriminate|].
  split; [exact Hcalls|exact Hstore].
Defined.

(** A finalize request whose CSR fails the signature check. *)
Lemma FinalizeOrder_invalid_csr_witness :
  exists w' e,
    FinalizeOrder (RT := scripted (finalizeScript (Some "bad signature")))
      (DB := memDatabase) tt aliceWorld = (w', RenderError e) /\
    Error_Type e = ErrorMalformedType /\
    store w' = store aliceWorld.
Proof.
  destruct (FinalizeOrder_invalid_csr
              (RT := scripted (finalizeScript (Some "bad signature")))
              (DB := memDatabase)
              tt aliceWorld bob acmeProvisioner (mkPayloadInfo []) "MIIB")
    as (w' & e & Hrun & Htyp & Hstore & _);
    [reflexivity|reflexivity|reflexivity|reflexivity| |].
  - right. right. exists [Byte.x30; Byte.x82], "CN=example.com", "bad signature".
    repeat split.
  - exists w', e. repeat split; assumption.
Defined.

Lemma FinalizeOrder_validates_before_fetch_witness :
  exists e,
    Error_Type e = ErrorMalformedType /\
    FinalizeOrder (RT := scripted (finalizeScript (Some "bad signature")))
      (DB := memDatabase) tt aliceWorld = (aliceWorld, RenderError e) /\
    FinalizeOrder (RT := scripted (finalizeScript (Some "bad signature")))
      (DB := memDatabase) tt emptyWorld = (emptyWorld, RenderError e).
Proof.
  destruct (FinalizeOrder_validates_before_fetch
              (RT := scripted (finalizeScript (Some "bad signature")))
              tt bob acmeProvisioner (mkPayloadInfo []))
    as (e & Htyp & Hall); [reflexivity|reflexivity|reflexivity| |].
  - right. exists "MIIB". split; [reflexivity|].
    right. right. exists [Byte.x30; Byte.x82], "CN=example.com", "bad signature".
    repeat split.
  - exists e. split; [exact Htyp|].
    split; [apply (Hall memDatabase aliceWorld)|apply (Hall memDatabase emptyWorld)].
Defined.

(** A new-order request with an IP identifier that does not parse. *)
Lemma NewOrder_invalid_identifiers_witness :
  exists e,
    NewOrder (RT := scripted badIPScript) (DB := memDatabase) tt emptyWorld
      = (emptyWorld, RenderError e) /\
    Error_Type e = ErrorMalformedType.
Proof.
  destruct (NewOrder_invalid_identifiers
              (RT := scripted badIPScript) (DB := memDatabase)
              tt emptyWorld alice acmeProvisioner (mkPayloadInfo [])
              (mkNewOrderRequest
                 [{| Identifier_Type := DNS; Identifier_Value := "example.com" |};
                  {| Identifier_Type := IP; Identifier_Value := "300.1.2.3" |}] 0 0))
    as (e & Hrun & Htyp & _);
    [reflexivity|reflexivity|reflexivity|reflexivity| |].
  - right. apply Exists_cons_tl, Exists_cons_hd. right. split; reflexivity.
  - exists e. split; assumption.
Defined.

(** [newAuthorization] for [*.example.com]. *)
Lemma newAuthorization_wildcard_witness :
  exists (w' : World MemStore nat) (stored : Authorization) (id : string),
    newAuthorization (RT := scripted wildcardScript) (DB := memDatabase) tt
      (pendingAuthorization alice (1024 * Hour) wildcardIdentifier) emptyWorld
      = (w', Ok (Authorization_with_ID stored id)) /\
    Authorization_Wildcard stored = true /\
    Authorization_Identifier stored
      = {| Identifier_Type := DNS; Identifier_Value := "example.com" |} /\
    exists ch, Authorization_Challenges stored = [Some ch] /\
               Challenge_Type ch = DNS01.
Proof.
  destruct (newAuthorization (RT := scripted wildcardScript) (DB := memDatabase)
              tt (pendingAuthorization alice (1024 * Hour) wildcardIdentifier)
              emptyWorld) as [w' [az'|e]] eqn:Hrun;
    [|vm_compute in Hrun; discriminate Hrun].
  destruct (newAuthorization_wildcard
              (RT := scripted wildcardScript) (DB := memDatabase) tt
              (pendingAuthorization alice (1024 * Hour) wildcardIdentifier)
              emptyWorld w' az' Hrun)
    as (stored & id & _ & Haz & Hprefix & _).
  destruct (Hprefix "example.com" eq_refl) as (Hwild & Hident & Hch).
  destruct (Hch eq_refl) as (ch & Hchs & Htyp & _).
  exists w', stored, id. split; [rewrite Haz; reflexivity|].
  split; [exact Hwild|]. split; [exact Hident|].
  exists ch. split; assumption.
Defined.

Lemma newAuthorization_token_witness :
  exists (w' : World MemStore nat) (az' : Authorization),
    newAuthorization (RT := scripted wildcardScript) (DB := memDatabase) tt
      (pendingAuthorization alice (1024 * Hour) wildcardIdentifier) emptyWorld
      = (w', Ok az') /\
    String.length (Authorization_Token az') = 32%nat /\
    isAlphanumeric (Authorization_Token az') = true /\
    Forall (fun c => exists ch, c = Some ch /\
                                Challenge_Token ch = Authorization_Token az')
      (Authorization_Challenges az').
Proof.
  destruct (newAuthorization (RT := scripted wildcardScript) (DB := memDatabase)
              tt (pendingAuthorization alice (1024 * Hour) wildcardIdentifier)
              emptyWorld) as [w' [az'|e]] eqn:Hrun;
    [|vm_compute in Hrun; discriminate Hrun].
  destruct (newAuthorization_token
              (RT := scripted wildcardScript) (DB := memDatabase) tt
              (pendingAuthorization alice (1024 * Hour) wildcardIdentifier)
              emptyWorld w' az' (scripted_Alphanumeric_spec wildcardScript) Hrun)
    as (_ & _ & Hlen & Halnum & Hchs & _).
  exists w', az'. split; [reflexivity|].
  split; [exact Hlen|]. split; [exact Halnum|exact Hchs].
Defined.

(** [NewOrder] for [*.example.com] without validity window. *)
Lemma NewOrder_authorizations_witness :
  exists (w' : World MemStore nat) (location : string) (body stored : Order)
         (id : string),
    NewOrder (RT := scripted wildcardScript) (DB := memDatabase) tt emptyWorld
      = (w', RenderJSON StatusCreated location body) /\
    last (calls w') = Some (CallCreateOrder stored (Ok id)) /\
    Order_Status stored = StatusPending /\
    Order_ExpiresAt stored = 1024 * Hour /\
    List.length (Order_AuthorizationIDs stored) = 1%nat.
Proof.
  destruct (NewOrder_authorizations
              (RT := scripted wildcardScript) (DB := memDatabase)
              tt emptyWorld alice acmeProvisioner (mkPayloadInfo [])
              (mkNewOrderRequest [wildcardIdentifier] 0 0))
    as [Hrun Hshape]; [reflexivity|reflexivity|reflexivity|reflexivity|reflexivity|].
  destruct (Hrun (scripted_infallibleRandom wildcardScript)
              memDatabase_infallibleCreate) as (w' & location & body & Heq).
  destruct (Hshape w' StatusCreated location body Heq)
    as (stored & id & azs & Hlast & _ & Hst & Hexp & Hids & _ & _ & _ & Hlen).
  exists w', location, body, stored, id.
  split; [exact Heq|]. split; [exact Hlast|]. split; [exact Hst|].
  split; [rewrite Hexp; reflexivity|]. rewrite Hlen, Hids. reflexivity.
Defined.

Lemma NewOrder_default_window_witness :
  exists (w' : World MemStore nat) (location : string) (body stored : Order)
         (id : string),
    NewOrder (RT := scripted wildcardScript) (DB := memDatabase) tt emptyWorld
      = (w', RenderJSON StatusCreated location body) /\
    last (calls w') = Some (CallCreateOrder stored (Ok id)) /\
    Order_NotBefore stored = 1000 * Hour - Minute /\
    Order_NotAfter stored = 1024 * Hour.
Proof.
  destruct (NewOrder (RT := scripted wildcardScript) (DB := memDatabase)
              tt emptyWorld) as [w' [e|status location body]] eqn:Hrun;
    [vm_compute in Hrun; discriminate Hrun|].
  destruct (NewOrder_default_window
              (RT := scripted wildcardScript) (DB := memDatabase)
              tt emptyWorld w' alice acmeProvisioner (mkPayloadInfo [])
              (mkNewOrderRequest [wildcardIdentifier] 0 0) status location body)
    as (stored & id & Hlast & _ & Hnb & Hna & _);
    [reflexivity|reflexivity|reflexivity|reflexivity|reflexivity|reflexivity
    |exact Hrun|].
  assert (Hstatus : status = StatusCreated)
    by (vm_compute in Hrun; now injection Hrun as _ <- _ _).
  exists w', location, body, stored, id.
  split; [now rewrite Hstatus|]. split; [exact Hlast|].
  split; [rewrite Hnb; reflexivity|rewrite Hna; reflexivity].
Defined.

(** C6 as stated fails on this run: the order handed to the storage has
    notBefore one minute before now, and its notAfter is not its
    notBefore plus the provisioner's default duration. *)
Lemma NewOrder_default_window_counterexample :
  ~ (forall (w' : World MemStore nat) (status : nat) (location : string)
            (body stored : Order) (id : string),
       Time_IsZero (NewOrderRequest_NotBefore
                      (mkNewOrderRequest [wildcardIdentifier] 0 0)) = true ->
       Time_IsZero (NewOrderRequest_NotAfter
                      (mkNewOrderRequest [wildcardIdentifier] 0 0)) = true ->
       NewOrder (RT := scripted wildcardScript) (DB := memDatabase) tt emptyWorld
         = (w', RenderJSON status location body) ->
       last (calls w') = Some (CallCreateOrder stored (Ok id)) ->
       Order_NotBefore stored = script_now wildcardScript - Minute /\
       Order_NotAfter stored
         = Order_NotBefore stored
           + Provisioner_DefaultTLSCertDuration acmeProvisioner).
Proof.
  intros Hclaim.
  destruct (NewOrder (RT := scripted wildcardScript) (DB := memDatabase)
              tt emptyWorld) as [w' resp] eqn:Hrun.
  vm_compute in Hrun. injection Hrun as <- <-.
  destruct (Hclaim _ _ _ _ _ _ eq_refl eq_refl eq_refl eq_refl) as [_ Hna].
  vm_compute in Hna. discriminate Hna.
Qed.

(** ** Further runs *)

(** A name and an address that parses are accepted. *)
Lemma Validate_accepts_iff_witness :
  NewOrderRequest_Validate (RT := scripted wildcardScript)
    (mkNewOrderRequest [exampleName; exampleAddress] 0 0) = None.
Proof.
  apply (Validate_accepts_iff (RT := scripted wildcardScript)
           (mkNewOrderRequest [exampleName; exampleAddress] 0 0)).
  split; [discriminate|].
  constructor; [left; reflexivity|].
  constructor; [|constructor].
  right. split; [reflexivity|]. eexists. reflexivity.
Defined.

(** The unsupported type in second position is reported; the address
    after it, which does not parse, is not. *)
Lemma Validate_first_offender_witness :
  NewOrderRequest_Validate (RT := scripted wildcardScript)
    (mkNewOrderRequest
       [exampleName;
        {| Identifier_Type := "email"; Identifier_Value := "a@example.com" |};
        {| Identifier_Type := IP; Identifier_Value := "300.1.2.3" |}] 0 0)
  = Some (NewError ErrorMalformedType "identifier type unsupported: email").
Proof.
  destruct (Validate_first_offender (RT := scripted wildcardScript)
              (mkNewOrderRequest
                 [exampleName;
                  {| Identifier_Type := "email"; Identifier_Value := "a@example.com" |};
                  {| Identifier_Type := IP; Identifier_Value := "300.1.2.3" |}] 0 0)
              [exampleName]
              [{| Identifier_Type := IP; Identifier_Value := "300.1.2.3" |}]
              {| Identifier_Type := "email"; Identifier_Value := "a@example.com" |})
    as [Htype _]; [reflexivity|constructor; [left; reflexivity|constructor]|].
  apply Htype. split; vm_compute; discriminate.
Defined.

Lemma FinalizeRequest_Validate_accepts_iff_witness :
  FinalizeRequest_Validate (RT := scripted (finalizeScript None))
    (mkFinalizeRequest "MIIB" None)
  = (mkFinalizeRequest "MIIB" (Some "CN=example.com"), None).
Proof.
  apply (FinalizeRequest_Validate_accepts_iff
           (RT := scripted (finalizeScript None))
           (mkFinalizeRequest "MIIB" None)
           (mkFinalizeRequest "MIIB" (Some "CN=example.com"))).
  exists [Byte.x30; Byte.x82], "CN=example.com". repeat split.
Defined.

(** The random source fails: nothing reaches the storage. *)
Lemma newAuthorization_random_failure_witness :
  newAuthorization (RT := brokenRandom wildcardScript) (DB := memDatabase) tt
    (pendingAuthorization alice (1024 * Hour) exampleName) emptyWorld
  = (mkWorld (store emptyWorld) 0%nat
       [CallAlphanumeric 32 (Err "entropy source unavailable")],
     Err (WrapErrorISE "entropy source unavailable"
            "error generating random alphanumeric ID")).
Proof.
  apply (newAuthorization_random_failure
           (RT := brokenRandom wildcardScript) (DB := memDatabase) tt
           (pendingAuthorization alice (1024 * Hour) exampleName) emptyWorld
           0%nat "entropy source unavailable").
  reflexivity.
Defined.


Lemma newAuthorization_calls_witness :
  exists (w' : World MemStore nat) (az' : Authorization) (chs : list Challenge),
    newAuthorization (RT := scripted wildcardScript) (DB := memDatabase) tt
      (pendingAuthorization alice (1024 * Hour) exampleName) emptyWorld
      = (w', Ok az') /\
    Authorization_Challenges az' = map Some chs /\
    map Challenge_Type chs = [DNS01; HTTP01; TLSALPN01].
Proof.
  destruct (newAuthorization (RT := scripted wildcardScript) (DB := memDatabase)
              tt (pendingAuthorization alice (1024 * Hour) exampleName)
              emptyWorld) as [w' [az'|e]] eqn:Hrun;
    [|vm_compute in Hrun; discriminate Hrun].
  pose proof Hrun as Hconcrete. vm_compute in Hconcrete.
  injection Hconcrete as _ Hconcrete.
  destruct (newAuthorization_calls
              (RT := scripted wildcardScript) (DB := memDatabase) tt
              (pendingAuthorization alice (1024 * Hour) exampleName)
              emptyWorld w' az' Hrun)
    as (tok & chs & stored & id & _ & Haz & _ & Hchs & Htypes & _).
  exists w', az', chs.
  split; [reflexivity|]. split; [rewrite Haz; exact Hchs|].
  rewrite Htypes.
  change (challengeTypes stored)
    with (challengeTypes (Authorization_with_ID stored id)).
  rewrite <- Haz, <- Hconcrete. reflexivity.
Defined.

(** [NewOrder] for a name and an address. *)
Lemma NewOrder_order_creation_witness :
  exists (stored : Order) (id : string),
    orderCalls
      (drop (List.length (calls emptyWorld))
         (calls (fst (NewOrder (RT := scripted (twoIdentifiersScript 0 0))
                        (DB := memDatabase) tt emptyWorld))))
      = [(stored, Ok id)] /\
    Order_AccountID stored = Account_ID alice /\
    Order_ProvisionerID stored = Provisioner_GetID acmeProvisioner.
Proof.
  assert (Hresp : exists location body,
             snd (NewOrder (RT := scripted (twoIdentifiersScript 0 0))
                    (DB := memDatabase) tt emptyWorld)
               = RenderJSON StatusCreated location body)
    by (vm_compute; eexists _, _; reflexivity).
  destruct Hresp as (location & body & Hresp).
  destruct (NewOrder_order_creation
              (RT := scripted (twoIdentifiersScript 0 0)) (DB := memDatabase)
              tt emptyWorld alice acmeProvisioner (mkPayloadInfo [])
              (mkNewOrderRequest [exampleName; exampleAddress] 0 0))
    as [_ Hcreated];
    [reflexivity|reflexivity|reflexivity|reflexivity|reflexivity|].
  destruct (Hcreated StatusCreated location body Hresp)
    as (stored & id & Hcalls & _ & _ & Hacc & Hprov & _).
  exists stored, id. split; [exact Hcalls|]. split; [exact Hacc|exact Hprov].
Defined.

Lemma NewOrder_challenges_witness :
  exists (w' : World MemStore nat) (status : nat) (location : string)
         (body : Order) (azs : list (Authorization * string)),
    NewOrder (RT := scripted (twoIdentifiersScript 0 0)) (DB := memDatabase)
      tt emptyWorld = (w', RenderJSON status location body) /\
    authorizationCalls (calls w') = map (fun p => (fst p, Ok (snd p))) azs /\
    Forall2 (fun identifier az =>
               exists chs : list Challenge,
                 Authorization_Challenges az = map Some chs /\
                 chs <> [] /\
                 map Challenge_Type chs = challengeTypes az /\
                 Forall (fun ch =>
                           Challenge_Token ch = Authorization_Token az /\
                           Challenge_Value ch
                             = TrimPrefix (Identifier_Value identifier) "*.")
                   chs)
      [exampleName; exampleAddress] (map fst azs).
Proof.
  destruct (NewOrder (RT := scripted (twoIdentifiersScript 0 0))
              (DB := memDatabase) tt emptyWorld)
    as [w' [e|status location body]] eqn:Hrun;
    [vm_compute in Hrun; discriminate Hrun|].
  destruct (NewOrder_challenges
              (RT := scripted (twoIdentifiersScript 0 0)) (DB := memDatabase)
              tt emptyWorld w' alice acmeProvisioner (mkPayloadInfo [])
              (mkNewOrderRequest [exampleName; exampleAddress] 0 0)
              status location body)
    as (azs & Hauth & Hall);
    [reflexivity|reflexivity|reflexivity|reflexivity|exact Hrun|].
  exists w', status, location, body, azs.
  split; [reflexivity|]. split; [exact Hauth|exact Hall].
Defined.

(** A notBefore of 2000 hours and no notAfter. *)
Lemma NewOrder_explicit_window_witness :
  exists (w' : World MemStore nat) (status : nat) (location : string)
         (body stored : Order) (id : string),
    NewOrder (RT := scripted (twoIdentifiersScript (2000 * Hour) 0))
      (DB := memDatabase) tt emptyWorld = (w', RenderJSON status location body) /\
    last (calls w') = Some (CallCreateOrder stored (Ok id)) /\
    Order_NotBefore stored = 2000 * Hour /\
    Order_NotAfter stored = 2024 * Hour.
Proof.
  destruct (NewOrder (RT := scripted (twoIdentifiersScript (2000 * Hour) 0))
              (DB := memDatabase) tt emptyWorld)
    as [w' [e|status location body]] eqn:Hrun;
    [vm_compute in Hrun; discriminate Hrun|].
  destruct (NewOrder_explicit_window
              (RT := scripted (twoIdentifiersScript (2000 * Hour) 0))
              (DB := memDatabase)
              tt emptyWorld w' alice acmeProvisioner (mkPayloadInfo [])
              (mkNewOrderRequest [exampleName; exampleAddress] (2000 * Hour) 0)
              status location body)
    as (stored & id & Hlast & Hnb & _ & Hna & _);
    [reflexivity|reflexivity|reflexivity|reflexivity|exact Hrun|].
  exists w', status, location, body, stored, id.
  split; [reflexivity|]. split; [exact Hlast|]. split.
  - apply Hnb. discriminate.
  - rewrite Hna; [reflexivity|discriminate|reflexivity].
Defined.

(** A request without account. *)
Lemma handlers_without_identity_witness :
  NewOrder (RT := scripted (orderScript (Err accountMissing) acmeProvisioner))
    (DB := memDatabase) tt aliceWorld = (aliceWorld, RenderError accountMissing) /\
  GetOrder (RT := scripted (orderScript (Err accountMissing) acmeProvisioner))
    (DB := memDatabase) tt aliceWorld = (aliceWorld, RenderError accountMissing) /\
  FinalizeOrder (RT := scripted (orderScript (Err accountMissing) acmeProvisioner))
    (DB := memDatabase) tt aliceWorld = (aliceWorld, RenderError accountMissing).
Proof.
  apply (handlers_without_identity
           (RT := scripted (orderScript (Err accountMissing) acmeProvisioner))
           (DB := memDatabase) tt aliceWorld accountMissing).
  left. reflexivity.
Defined.

(** A new-order request whose payload does not unmarshal. *)
Lemma handlers_without_payload_witness :
  NewOrder (RT := scripted (orderScript (Ok alice) acmeProvisioner))
    (DB := memDatabase) tt aliceWorld
  = (aliceWorld,
     RenderError (WrapError ErrorMalformedType "no identifiers"
                    "failed to unmarshal new-order request payload")).
Proof.
  destruct (handlers_without_payload
              (RT := scripted (orderScript (Ok alice) acmeProvisioner))
              (DB := memDatabase) tt aliceWorld alice acmeProvisioner)
    as [_ Hjson]; [reflexivity|reflexivity|].
  apply (Hjson (mkPayloadInfo []) "no identifiers"); reflexivity.
Defined.

(** [alice] reads and finalizes her order. *)
Lemma GetOrder_owner_witness :
  calls (fst (GetOrder (RT := scripted (orderScript (Ok alice) acmeProvisioner))
                (DB := memDatabase) tt aliceWorld))
    = [CallGetOrder "ord0"; CallUpdateStatus aliceOrder] /\
  snd (GetOrder (RT := scripted (orderScript (Ok alice) acmeProvisioner))
         (DB := memDatabase) tt aliceWorld)
    = RenderJSON StatusOK "https://ca.example/acme/order/ord0" aliceOrder.
Proof.
  destruct (GetOrder_owner
              (RT := scripted (orderScript (Ok alice) acmeProvisioner))
              (DB := memDatabase) tt aliceWorld alice acmeProvisioner aliceOrder)
    as (Hcalls & _ & Hresp);
    [reflexivity|reflexivity|reflexivity|reflexivity|reflexivity|].
  split; [exact Hcalls|exact Hresp].
Defined.

Lemma FinalizeOrder_owner_witness :
  calls (fst (FinalizeOrder
                (RT := scripted (orderScript (Ok alice) acmeProvisioner))
                (DB := memDatabase) tt aliceWorld))
    = [CallGetOrder "ord0"; CallFinalize aliceOrder] /\
  snd (FinalizeOrder (RT := scripted (orderScript (Ok alice) acmeProvisioner))
         (DB := memDatabase) tt aliceWorld)
    = RenderJSON StatusOK "https://ca.example/acme/order/ord0" aliceOrder.
Proof.
  destruct (FinalizeOrder_owner
              (RT := scripted (orderScript (Ok alice) acmeProvisioner))
              (DB := memDatabase) tt aliceWorld alice acmeProvisioner
              (mkPayloadInfo []) "MIIB" [Byte.x30; Byte.x82] "CN=example.com"
              aliceOrder)
    as (Hcalls & _ & Hresp);
    [reflexivity|reflexivity|reflexivity|reflexivity|reflexivity|reflexivity
    |reflexivity|reflexivity|reflexivity|reflexivity|].
  split; [exact Hcalls|exact Hresp].
Defined.

(** The storage is empty: the order is not found. *)
Lemma handlers_order_not_found_witness :
  GetOrder (RT := scripted (orderScript (Ok alice) acmeProvisioner))
    (DB := memDatabase) tt emptyWorld
  = (mkWorld (store emptyWorld) 0%nat [CallGetOrder "ord0"],
     RenderError (WrapErrorISE "order not found" "error retrieving order")) /\
  FinalizeOrder (RT := scripted (orderScript (Ok alice) acmeProvisioner))
    (DB := memDatabase) tt emptyWorld
  = (mkWorld (store emptyWorld) 0%nat [CallGetOrder "ord0"],
     RenderError (WrapErrorISE "order not found" "error retrieving order")).
Proof.
  destruct (handlers_order_not_found
              (RT := scripted (orderScript (Ok alice) acmeProvisioner))
              (DB := memDatabase) tt emptyWorld alice acmeProvisioner
              "order not found")
    as [Hget Hfin]; [reflexivity|reflexivity|reflexivity|].
  split; [exact Hget|].
  apply (Hfin (mkPayloadInfo []) "MIIB"); reflexivity.
Defined.

(** [bob] tries to finalize the order of [alice]. *)
Lemma FinalizeOrder_guard_before_Finalize_witness :
  store (fst (FinalizeOrder (RT := scripted (orderScript (Ok bob) acmeProvisioner))
                (DB := memDatabase) tt aliceWorld))
    = store aliceWorld /\
  calls (fst (FinalizeOrder (RT := scripted (orderScript (Ok bob) acmeProvisioner))
                (DB := memDatabase) tt aliceWorld))
    = [CallGetOrder "ord0"].
Proof.
  destruct (FinalizeOrder_guard_before_Finalize
              (RT := scripted (orderScript (Ok bob) acmeProvisioner))
              (DB := memDatabase) tt aliceWorld bob acmeProvisioner
              (mkPayloadInfo []) "MIIB" aliceOrder)
    as (Hstore & Hcalls & _);
    [reflexivity|reflexivity|reflexivity|reflexivity|reflexivity|reflexivity
    |left; vm_compute; discriminate|].
  split; [exact Hstore|exact Hcalls].
Defined.

(** [bob], under another provisioner, asks for the order of [alice]:
    the error names the account. *)
Lemma GetOrder_guard_message_witness :
  snd (GetOrder (RT := scripted (orderScript (Ok bob) otherProvisioner))
         (DB := memDatabase) tt aliceWorld)
  = RenderError
      (NewError ErrorUnauthorizedType "account 'bob' does not own order 'ord0'").
Proof.
  destruct (GetOrder_guard_message
              (RT := scripted (orderScript (Ok bob) otherProvisioner))
              (DB := memDatabase) tt aliceWorld bob otherProvisioner aliceOrder)
    as [Haccount _]; [reflexivity|reflexivity|reflexivity|].
  apply Haccount. vm_compute. discriminate.
Defined.

(** [alice] creates an order; she can read it, [bob] cannot. *)
Lemma NewOrder_then_GetOrder_witness :
  exists (w1 : World MemStore nat) (status : nat) (location : string)
         (body : Order),
    NewOrder (RT := perRequest wildcardScript) (DB := memDatabase)
      wildcardScript emptyWorld = (w1, RenderJSON status location body) /\
    (exists o,
       calls (fst (GetOrder (RT := perRequest wildcardScript) (DB := memDatabase)
                     (orderScript (Ok alice) acmeProvisioner) w1))
         = calls w1 ++ [CallGetOrder "ord0"; CallUpdateStatus o]) /\
    (exists e,
       snd (GetOrder (RT := perRequest wildcardScript) (DB := memDatabase)
              (orderScript (Ok bob) acmeProvisioner) w1)
         = RenderError e /\
       Error_Type e = ErrorUnauthorizedType).
Proof.
  destruct (NewOrder (RT := perRequest wildcardScript) (DB := memDatabase)
              wildcardScript emptyWorld)
    as [w1 [e|status location body]] eqn:Hrun;
    [vm_compute in Hrun; discriminate Hrun|].
  pose proof Hrun as Hconcrete. vm_compute in Hconcrete.
  injection Hconcrete as Hw1 _ _ _.
  assert (Hlast : exists stored,
             last (calls w1) = Some (CallCreateOrder stored (Ok "ord0")) /\
             db_GetOrder (Database := memDatabase) (store w1) "ord0"
               = Ok (Order_with_ID stored "ord0")).
  { rewrite <- Hw1. eexists. split; reflexivity. }
  destruct Hlast as (stored & Hlast & Hget).
  exists w1, status, location, body. split; [reflexivity|]. split.
  - exists (Order_with_ID stored "ord0").
    apply (NewOrder_then_GetOrder
             (RT := perRequest wildcardScript) (DB := memDatabase)
             wildcardScript (orderScript (Ok alice) acmeProvisioner)
             emptyWorld w1 alice alice acmeProvisioner acmeProvisioner
             (mkPayloadInfo []) (mkNewOrderRequest [wildcardIdentifier] 0 0)
             status location body stored "ord0");
      try reflexivity; assumption.
  - destruct (NewOrder_then_GetOrder
                (RT := perRequest wildcardScript) (DB := memDatabase)
                wildcardScript (orderScript (Ok bob) acmeProvisioner)
                emptyWorld w1 alice bob acmeProvisioner acmeProvisioner
                (mkPayloadInfo []) (mkNewOrderRequest [wildcardIdentifier] 0 0)
                status location body stored "ord0")
      as [_ Hother]; try reflexivity; try assumption.
    destruct Hother as (e & He & Htyp); [left; vm_compute; discriminate|].
    exists e. split; [rewrite He; reflexivity|exact Htyp].
Defined.
